(** * The Time-Traveler Codex API: content service over a document store

    A shallow embedding of [main.py] (the FastAPI endpoints) and of the part of
    [schemas.py] the endpoints are compared with.  The document store is the
    external collaborator of the service: it is modelled as an in-memory
    database with an explicit fault oracle, so that every call of the client
    may either succeed or raise. *)

From Stdlib Require Import ZArith.
From Stdlib Require QArith.QArith_base.
From stdpp Require Import gmap strings list fin_maps pretty.

Local Open Scope string_scope.
Local Open Scope list_scope.
Set Warnings "-register-all".

(** ** Python values and dictionaries *)

(** JSON-like values carried by a request body ([Dict[str, Any]]). *)
Inductive value : Type :=
| VNone
| VBool (b : bool)
| VInt (n : Z)
| VFloat (q : QArith_base.Q)
| VStr (s : string)
| VList (l : list value)
| VDict (d : list (string * value)).

(** A Python [dict] with string keys, in insertion order. *)
Definition dict : Type := list (string * value).

(** [d.get(k)] *)
Fixpoint dict_get (k : string) (d : dict) : option value :=
  match d with
  | [] => None
  | (k', v) :: d' => if String.eqb k k' then Some v else dict_get k d'
  end.

(** [d[k] = v]: an existing key keeps its position, a new key goes last. *)
Fixpoint dict_set (k : string) (v : value) (d : dict) : dict :=
  match d with
  | [] => [(k, v)]
  | (k', v') :: d' =>
      if String.eqb k k' then (k, v) :: d' else (k', v') :: dict_set k v d'
  end.

(** ** The document store *)

Definition oid : Type := nat.

(** A document as the store keeps it: the generated [_id] and the fields
    that were inserted. *)
Record stored_doc : Type := StoredDoc {
  doc_id : oid;
  doc_fields : dict
}.

(** The client calls the service makes, per collection. *)
Inductive op : Type :=
| OpFind (c : string)
| OpInsert (c : string)
| OpDelete (c : string)
| OpCount (c : string)
| OpListNames.

(** The [name] attribute of the handle as [hasattr]/[getattr] see it. *)
Inductive attr : Type :=
| AttrMissing
| AttrValue (s : string)
| AttrRaises (msg : string).

(** The database behind a non-null handle.  [faults o = Some msg] means that
    the client call [o] raises with message [msg]. *)
Record db_state : Type := DbState {
  db_name : attr;
  colls : gmap string (list stored_doc);
  next_id : oid;
  faults : op -> option string
}.

(** The module-level [db]: [None] when no connection string was configured. *)
Definition handle : Type := option db_state.

(** Filters of the form [{k1: s1, ...}] with string values; the service uses
    [{}] and [{"key": "global"}] only. *)
Definition query : Type := list (string * string).

Definition field_is (k s : string) (f : dict) : bool :=
  match dict_get k f with
  | Some (VStr s') => String.eqb s s'
  | _ => false
  end.

Definition matches (q : query) (x : stored_doc) : bool :=
  forallb (fun c => field_is (fst c) (snd c) (doc_fields x)) q.

(** [db[c]]: a collection that was never written reads as empty. *)
Definition coll (c : string) (d : db_state) : list stored_doc :=
  default [] (colls d !! c).

Definition set_colls (m : gmap string (list stored_doc)) (d : db_state) : db_state :=
  {| db_name := db_name d; colls := m; next_id := next_id d; faults := faults d |}.

(** ** Exceptions and the state-and-exception monad *)

Inductive exn : Type :=
| HTTPException (status_code : Z) (detail : string)
| StoreUnavailable
| StoreOperationFailure (o : op) (msg : string)
| TypeError (msg : string)
| AttributeFailure (msg : string).

Inductive result (A : Type) : Type :=
| Ok (a : A)
| Raise (e : exn).
Arguments Ok {A} a.
Arguments Raise {A} e.

(** [str(e)]; an [HTTPException] prints as its status code and detail. *)
Definition str (e : exn) : string :=
  match e with
  | HTTPException c detail => String.append (pretty c) (String.append ": " detail)
  | StoreUnavailable => "Database not available"
  | StoreOperationFailure _ msg => msg
  | TypeError msg => msg
  | AttributeFailure msg => msg
  end.

(** A statement over a mutable state [S] either returns or raises; what it
    wrote before raising stays written. *)
Definition ST (S A : Type) : Type := S -> result A * S.

Definition ret {S A : Type} (a : A) : ST S A := fun s => (Ok a, s).

Definition raise {S A : Type} (e : exn) : ST S A := fun s => (Raise e, s).

Definition bind {S A B : Type} (m : ST S A) (k : A -> ST S B) : ST S B :=
  fun s =>
    match m s with
    | (Ok a, s') => k a s'
    | (Raise e, s') => (Raise e, s')
    end.

(** [try: m  except Exception as e: h e] *)
Definition try_except {S A : Type} (m : ST S A) (h : exn -> ST S A) : ST S A :=
  fun s =>
    match m s with
    | (Ok a, s') => (Ok a, s')
    | (Raise e, s') => h e s'
    end.

Notation "x <- m ;; k" := (bind m (fun x => k))
  (at level 100, m at next level, right associativity).
Notation "m ;;; k" := (bind m (fun _ => k))
  (at level 100, right associativity).

(** [for x in l: body x] *)
Fixpoint for_each {S A : Type} (l : list A) (body : A -> ST S unit) : ST S unit :=
  match l with
  | [] => ret tt
  | x :: l' => body x ;;; for_each l' body
  end.

Definition exec {S A : Type} (m : ST S A) (s : S) : S := snd (m s).
Definition eval {S A : Type} (m : ST S A) (s : S) : result A := fst (m s).

(** ** Client calls on the handle *)

Definition not_subscriptable : exn :=
  TypeError "'NoneType' object is not subscriptable".

(** Runs a client call [o] on the database behind the handle. *)
Definition client_call {A : Type} (o : op) (f : db_state -> A * db_state) : ST handle A :=
  fun db =>
    match db with
    | None => (Raise not_subscriptable, None)
    | Some d =>
        match faults d o with
        | Some msg => (Raise (StoreOperationFailure o msg), Some d)
        | None => let (a, d') := f d in (Ok a, Some d')
        end
    end.

(** [list(db[c].find(q).limit(n))] *)
Definition find_limit (c : string) (q : query) (n : nat) : ST handle (list stored_doc) :=
  client_call (OpFind c) (fun d => (take n (List.filter (matches q) (coll c d)), d)).

(** [db[c].count_documents(q)] *)
Definition count_documents (c : string) (q : query) : ST handle nat :=
  client_call (OpCount c) (fun d => (length (List.filter (matches q) (coll c d)), d)).

(** [db[c].delete_many(q)]; the number of deleted documents is returned. *)
Definition without (c : string) (q : query) (d : db_state) : db_state :=
  set_colls (alter (List.filter (fun x => negb (matches q x))) c (colls d)) d.

Definition delete_many (c : string) (q : query) : ST handle nat :=
  client_call (OpDelete c) (fun d =>
    (length (List.filter (matches q) (coll c d)), without c q d)).

(** [db[c].insert_one(data).inserted_id] *)
Definition with_new (c : string) (data : dict) (d : db_state) : db_state :=
  {| db_name := db_name d;
     colls := <[c := coll c d ++ [StoredDoc (next_id d) data]]> (colls d);
     next_id := S (next_id d);
     faults := faults d |}.

Definition insert_one (c : string) (data : dict) : ST handle oid :=
  client_call (OpInsert c) (fun d => (next_id d, with_new c data d)).

(** Modelled from the spec: [create_document] of the missing [database.py].
    It inserts the payload verbatim as a new document into the named
    collection and returns the generated identifier; it fails with
    StoreUnavailable if the store handle is absent. *)
Definition create_document (collection_name : string) (data : dict) : ST handle oid :=
  fun db =>
    match db with
    | None => (Raise StoreUnavailable, None)
    | Some _ => insert_one collection_name data db
    end.

(** Modelled from the spec: [get_documents] of the missing [database.py].
    It reads all documents of the collection; a failing query propagates. *)
Definition get_documents (collection_name : string) : ST handle (list stored_doc) :=
  fun db =>
    match db with
    | None => (Raise StoreUnavailable, None)
    | Some d =>
        match faults d (OpFind collection_name) with
        | Some msg => (Raise (StoreOperationFailure (OpFind collection_name) msg), db)
        | None => (Ok (coll collection_name d), db)
        end
    end.

(** [if db is None: raise HTTPException(status_code=500, ...)] *)
Definition db_unavailable : exn := HTTPException 500 "Database not available".

Definition require_db : ST handle unit :=
  fun db =>
    match db with
    | None => (Raise db_unavailable, None)
    | Some _ => (Ok tt, db)
    end.

(** ** GET /test *)

Record report : Type := Report {
  backend : string;
  database : string;
  database_url : option string;
  database_name : option string;
  connection_status : string;
  collections : list string
}.

Definition set_database (s : string) : ST report unit :=
  fun r => (Ok tt, {| backend := backend r; database := s;
                      database_url := database_url r;
                      database_name := database_name r;
                      connection_status := connection_status r;
                      collections := collections r |}).

Definition set_database_url (s : option string) : ST report unit :=
  fun r => (Ok tt, {| backend := backend r; database := database r;
                      database_url := s;
                      database_name := database_name r;
                      connection_status := connection_status r;
                      collections := collections r |}).

Definition set_database_name (s : option string) : ST report unit :=
  fun r => (Ok tt, {| backend := backend r; database := database r;
                      database_url := database_url r;
                      database_name := s;
                      connection_status := connection_status r;
                      collections := collections r |}).

Definition set_connection_status (s : string) : ST report unit :=
  fun r => (Ok tt, {| backend := backend r; database := database r;
                      database_url := database_url r;
                      database_name := database_name r;
                      connection_status := s;
                      collections := collections r |}).

Definition set_collections (l : list string) : ST report unit :=
  fun r => (Ok tt, {| backend := backend r; database := database r;
                      database_url := database_url r;
                      database_name := database_name r;
                      connection_status := connection_status r;
                      collections := l |}).

(** [db.name if hasattr(db, 'name') else None]; an attribute whose getter
    raises something else than AttributeError makes [hasattr] raise. *)
Definition getattr_name {S : Type} (d : db_state) : ST S (option string) :=
  match db_name d with
  | AttrMissing => ret None
  | AttrValue s => ret (Some s)
  | AttrRaises msg => raise (AttributeFailure msg)
  end.

(** [db.list_collection_names()] *)
Definition list_collection_names {S : Type} (d : db_state) : ST S (list string) :=
  match faults d OpListNames with
  | Some msg => raise (StoreOperationFailure OpListNames msg)
  | None => ret (map_to_list (colls d)).*1
  end.

(** Truth value of [os.getenv(...)]: unset and empty are false. *)
Definition truthy (v : option string) : bool :=
  match v with
  | None | Some EmptyString => false
  | Some _ => true
  end.

Definition initial_response : report :=
  {| backend := "✅ Running";
     database := "❌ Not Available";
     database_url := None;
     database_name := None;
     connection_status := "Not Connected";
     collections := [] |}.

Definition test_database_body (DATABASE_URL : option string) (db : handle) : ST report unit :=
  try_except
    (match db with
     | Some d =>
         set_database "✅ Available" ;;;
         set_database_url
           (Some (if truthy DATABASE_URL then "✅ Set" else "❌ Not Set")) ;;;
         nm <- getattr_name d ;;
         set_database_name (Some (default "✅ Connected" nm)) ;;;
         set_connection_status "Connected" ;;;
         try_except
           (names <- list_collection_names d ;;
            set_collections (take 10 names) ;;;
            set_database "✅ Connected & Working")
           (fun e =>
              set_database (String.append "⚠️  Connected but Error: " (String.substring 0 50 (str e))))
     | None => set_database "⚠️  Available but not initialized"
     end)
    (fun e => set_database (String.append "❌ Error: " (String.substring 0 50 (str e)))).

Definition test_database (DATABASE_URL : option string) (db : handle) : result report :=
  match test_database_body DATABASE_URL db initial_response with
  | (Ok _, response) => Ok response
  | (Raise e, _) => Raise e
  end.

(** ** GET /api/content *)

(** A document of the bundle: one read from the store or a literal. *)
Inductive document : Type :=
| FromStore (x : stored_doc)
| Literal (f : dict).

Record content : Type := Content {
  eras : list stored_doc;
  projects : list stored_doc;
  skills : list stored_doc;
  achievements : list stored_doc;
  profile : option stored_doc;
  styles : document
}.

Definition global_key : query := [("key", "global")].

Definition default_styles : dict :=
  [("key", VStr "global"); ("theme", VStr "cyber");
   ("glow", VFloat (QArith_base.Qmake 6 10))].

(** The [try]/[except] block of [get_all_content]: the styles document
    keyed "global", or the literal default. *)
Definition styles_lookup : ST handle document :=
  try_except
    (found <- find_limit "styles" global_key 1 ;;
     ret (match found with
          | x :: _ => FromStore x
          | [] => Literal default_styles
          end))
    (fun _ => ret (Literal default_styles)).

Definition get_all_content : ST handle content :=
  require_db ;;;
  eras_ <- get_documents "era" ;;
  projects_ <- get_documents "project" ;;
  skills_ <- get_documents "skill" ;;
  achievements_ <- get_documents "achievement" ;;
  profiles <- get_documents "profile" ;;
  styles_ <- styles_lookup ;;
  ret {| eras := eras_; projects := projects_; skills := skills_;
         achievements := achievements_; profile := head profiles;
         styles := styles_ |}.

(** ** POST endpoints *)

Record inserted : Type := Inserted { inserted_id : oid }.

Definition create_era (payload : dict) : ST handle inserted :=
  era_id <- create_document "era" payload ;;
  ret {| inserted_id := era_id |}.

Definition create_project_api (payload : dict) : ST handle inserted :=
  proj_id <- create_document "project" payload ;;
  ret {| inserted_id := proj_id |}.

Definition create_skill_api (payload : dict) : ST handle inserted :=
  skill_id <- create_document "skill" payload ;;
  ret {| inserted_id := skill_id |}.

Definition create_achievement_api (payload : dict) : ST handle inserted :=
  ach_id <- create_document "achievement" payload ;;
  ret {| inserted_id := ach_id |}.

Definition set_profile_api (payload : dict) : ST handle inserted :=
  require_db ;;;
  delete_many "profile" [] ;;;
  prof_id <- create_document "profile" payload ;;
  ret {| inserted_id := prof_id |}.

Definition set_styles_api (payload : dict) : ST handle inserted :=
  require_db ;;;
  delete_many "styles" global_key ;;;
  let data := dict_set "key" (VStr "global") payload in
  sid <- create_document "styles" data ;;
  ret {| inserted_id := sid |}.

(** ** POST /api/seed *)

Definition seed_eras : list dict :=
  [ [("key", VStr "ancient"); ("name", VStr "Ancient Civilization Era");
     ("theme", VStr "ancient");
     ("description", VStr "Desert ruins under golden sunlight.")];
    [("key", VStr "medieval"); ("name", VStr "Medieval Arcane Era");
     ("theme", VStr "medieval");
     ("description", VStr "Arcane library of glowing runes.")];
    [("key", VStr "industrial"); ("name", VStr "Industrial Revolution");
     ("theme", VStr "industrial");
     ("description", VStr "Steam, gears and copper pipes.")];
    [("key", VStr "cyber"); ("name", VStr "Cyber Age (2080)");
     ("theme", VStr "cyber");
     ("description", VStr "Neon holographic interfaces.")];
    [("key", VStr "cosmic"); ("name", VStr "Cosmic Future");
     ("theme", VStr "cosmic");
     ("description", VStr "Deep space and energy spheres.")] ].

Definition demo_projects : list dict :=
  [ [("title", VStr "Solar Cartographer"); ("era_key", VStr "ancient");
     ("subtitle", VStr "Mapping constellations in desert skies");
     ("description", VStr "A data-vis project styled as floating artifacts.");
     ("problem", VStr "Scattered star data.");
     ("solution", VStr "Unified visual cartography.");
     ("result", VStr "Faster insights.");
     ("tech_stack", VList [VStr "D3.js"; VStr "Python"]);
     ("media", VDict [("image", VStr ""); ("video", VStr ""); ("model", VStr "")])];
    [("title", VStr "Grimoire Engine"); ("era_key", VStr "medieval");
     ("subtitle", VStr "Generative spellbook UI");
     ("description", VStr "Floating spellbooks reveal interactive pages.");
     ("tech_stack", VList [VStr "React"; VStr "Framer Motion"])];
    [("title", VStr "CopperWorks"); ("era_key", VStr "industrial");
     ("subtitle", VStr "Blueprint renderer");
     ("description", VStr "Mechanical blueprints unfold with details.");
     ("tech_stack", VList [VStr "Three.js"; VStr "Node"])];
    [("title", VStr "Neon Nexus"); ("era_key", VStr "cyber");
     ("subtitle", VStr "Holographic dashboard");
     ("description", VStr "Glowing tiles materialize project windows.");
     ("tech_stack", VList [VStr "React"; VStr "WebGL"])];
    [("title", VStr "Cosmic Lattice"); ("era_key", VStr "cosmic");
     ("subtitle", VStr "Orbital knowledge base");
     ("description", VStr "Energy spheres open cosmic info panels.");
     ("tech_stack", VList [VStr "Three.js"; VStr "GSAP"])] ].

Definition seed_skills : list dict :=
  [ [("name", VStr "React"); ("level", VInt 90); ("category", VStr "Frontend");
     ("icon", VStr "Atom")];
    [("name", VStr "Three.js"); ("level", VInt 80); ("category", VStr "3D");
     ("icon", VStr "Cube")];
    [("name", VStr "FastAPI"); ("level", VInt 85); ("category", VStr "Backend");
     ("icon", VStr "Server")] ].

Definition seed_achievements : list dict :=
  [ [("title", VStr "Hackathon Winner");
     ("description", VStr "Built an AR prototype in 24h");
     ("year", VInt 2023); ("capsule", VStr "orbit")] ].

Definition seed_profile : dict :=
  [("name", VStr "The Time Traveler");
   ("role", VStr "Creative Technologist");
   ("photo_url", VStr "");
   ("bio", VStr "Jumping across eras to craft immersive experiences.");
   ("timeline", VList
      [VDict [("year", VInt 2018); ("title", VStr "First Expedition");
              ("text", VStr "Discovered the Ancient Codex")];
       VDict [("year", VInt 2022); ("title", VStr "Cyber Age");
              ("text", VStr "Built neon universes")]]);
   ("links", VList
      [VDict [("label", VStr "GitHub"); ("url", VStr "https://github.com/")];
       VDict [("label", VStr "LinkedIn"); ("url", VStr "https://linkedin.com/")]])].

Definition seed_styles : dict :=
  [("key", VStr "global"); ("theme", VStr "cyber");
   ("glow", VFloat (QArith_base.Qmake 7 10))].

(** [for x in l: create_document(c, x)] *)
Definition create_all (c : string) (l : list dict) : ST handle unit :=
  for_each l (fun x => create_document c x ;;; ret tt).

Definition seed_demo : ST handle string :=
  require_db ;;;
  n <- count_documents "era" [] ;;
  if Nat.ltb 0 n then ret "already-seeded"
  else
    create_all "era" seed_eras ;;;
    create_all "project" demo_projects ;;;
    create_all "skill" seed_skills ;;;
    create_all "achievement" seed_achievements ;;;
    create_document "profile" seed_profile ;;;
    delete_many "styles" global_key ;;;
    create_document "styles" seed_styles ;;;
    ret "seeded".

(** ** The endpoints as one request type *)

Inductive request : Type :=
| GetTest (DATABASE_URL : option string)
| GetContent
| PostEras (payload : dict)
| PostProjects (payload : dict)
| PostSkills (payload : dict)
| PostAchievements (payload : dict)
| PostProfile (payload : dict)
| PostStyles (payload : dict)
| PostSeed.

(** The handle after the request was served, whether it returned or raised. *)
Definition serve (r : request) (db : handle) : handle :=
  match r with
  | GetTest _ => db
  | GetContent => exec get_all_content db
  | PostEras p => exec (create_era p) db
  | PostProjects p => exec (create_project_api p) db
  | PostSkills p => exec (create_skill_api p) db
  | PostAchievements p => exec (create_achievement_api p) db
  | PostProfile p => exec (set_profile_api p) db
  | PostStyles p => exec (set_styles_api p) db
  | PostSeed => exec seed_demo db
  end.

(** ** schemas.py: the declared constraint on [Skill.level] *)

(** [level: int = Field(75, ge=0, le=100)] *)
Definition Skill_level_in_range (n : Z) : bool :=
  (0 <=? n)%Z && (n <=? 100)%Z.

(** ** Stores without faults *)

(** No client call raises. *)
Definition healthy (d : db_state) : Prop := forall o, faults d o = None.

(** The documents of a collection, through the handle. *)
Definition docs (c : string) (db : handle) : list stored_doc :=
  match db with
  | Some d => coll c d
  | None => []
  end.

Definition is_global (x : stored_doc) : bool := matches global_key x.

Definition empty_db : db_state :=
  {| db_name := AttrValue "codex"; colls := ∅; next_id := 0;
     faults := fun _ => None |}.

(** Requests served one after the other. *)
Definition serve_all (rs : list request) (db : handle) : handle :=
  foldl (fun h r => serve r h) db rs.

(** The documents that inserting [l] one by one creates, from identifier [n]. *)
Fixpoint stamp (n : oid) (l : list dict) : list stored_doc :=
  match l with
  | [] => []
  | x :: l' => StoredDoc n x :: stamp (S n) l'
  end.

(** The database after inserting [l] one by one into [c]. *)
Definition with_all (c : string) (l : list dict) (d : db_state) : db_state :=
  foldl (fun d' x => with_new c x d') d l.

(** The styles documents whose key is not "global". *)
Definition other_styles (db : handle) : list stored_doc :=
  List.filter (fun x => negb (is_global x)) (docs "styles" db).

(** A statement that leaves the styles documents of other keys as they are,
    also when it raises. *)
Definition keeps_other_styles {A : Type} (m : ST handle A) : Prop :=
  forall db, other_styles (exec m db) = other_styles db.

(** The text of the [database] field of the health report. *)
Definition degraded_text (db : handle) : string :=
  match db with
  | None => "⚠️  Available but not initialized"
  | Some d =>
      match db_name d with
      | AttrRaises msg => String.append "❌ Error: " (String.substring 0 50 msg)
      | _ =>
          match faults d OpListNames with
          | Some msg =>
              String.append "⚠️  Connected but Error: " (String.substring 0 50 msg)
          | None => "✅ Connected & Working"
          end
      end
  end.

(** The database a full seeding pass leaves. *)
Definition seeded (d : db_state) : db_state :=
  with_new "styles" seed_styles
    (without "styles" global_key
       (with_new "profile" seed_profile
          (with_all "achievement" seed_achievements
             (with_all "skill" seed_skills
                (with_all "project" demo_projects
                   (with_all "era" seed_eras d)))))).

#[global] Instance op_eq_dec : EqDecision op.
Proof. solve_decision. Defined.

(** The same database with the client call [o] raising [msg]. *)
Definition failing (o : op) (msg : string) (d : db_state) : db_state :=
  {| db_name := db_name d; colls := colls d; next_id := next_id d;
     faults := fun o' => if decide (o' = o) then Some msg else faults d o' |}.

(** The collections [get_all_content] reads with [get_documents]. *)
Definition list_lookups : list string := ["era"; "project"; "skill"; "achievement"].

(** ** Assertions on statements *)

(** From a handle satisfying [P], the statement [m] either returns [a] in a
    handle satisfying [Q a] or raises in a handle satisfying [E]. *)
Definition hoare {A : Type} (P : handle -> Prop) (m : ST handle A)
    (Q : A -> handle -> Prop) (E : handle -> Prop) : Prop :=
  forall db, P db ->
    match m db with
    | (Ok a, db') => Q a db'
    | (Raise _, db') => E db'
    end.

(** [I] holds after [m], returning or raising, if it held before. *)
Definition preserved {A : Type} (I : handle -> Prop) (m : ST handle A) : Prop :=
  hoare I m (fun _ => I) I.

(** A statement that writes nothing. *)
Definition read_only {A : Type} (m : ST handle A) : Prop :=
  forall db, snd (m db) = db.

(** What the styles sub-query of [get_all_content] yields on a database. *)
Definition styles_of (d : db_state) : document :=
  match faults d (OpFind "styles") with
  | Some _ => Literal default_styles
  | None =>
      match List.filter is_global (coll "styles" d) with
      | x :: _ => FromStore x
      | [] => Literal default_styles
      end
  end.

(** The bundle [get_all_content] assembles from a database. *)
Definition bundle_of (d : db_state) : content :=
  {| eras := coll "era" d; projects := coll "project" d;
     skills := coll "skill" d; achievements := coll "achievement" d;
     profile := head (coll "profile" d); styles := styles_of d |}.

(** The lookups of [get_all_content] outside its [try] block answer. *)
Definition lookups_answer (d : db_state) : Prop :=
  Forall (fun c => faults d (OpFind c) = None) (list_lookups ++ ["profile"]).

(** A string-valued field of a document. *)
Definition str_field (k : string) (f : dict) : option string :=
  match dict_get k f with
  | Some (VStr s) => Some s
  | _ => None
  end.

(** schemas.py: [Era.theme: Literal[...]] *)
Definition Era_themes : list string :=
  ["ancient"; "medieval"; "industrial"; "cyber"; "cosmic"; "custom"].

(** schemas.py: [Achievement.capsule: Literal[...]] *)
Definition Achievement_capsules : list string :=
  ["pulse"; "orbit"; "glow"; "spark"].

(** The number of styles documents with key "global". *)
Definition count_global (db : handle) : nat :=
  length (List.filter is_global (docs "styles" db)).

(** The collection [c] still starts with the documents [l]. *)
Definition extends (c : string) (l : list stored_doc) (db : handle) : Prop :=
  l `prefix_of` docs c db.

(** * Properties *)

(** ** Dictionaries *)

Lemma dict_get_set_eq (k : string) (v : value) (d : dict) :
  dict_get k (dict_set k v d) = Some v.
Proof.
  induction d as [|[k' v'] d IH]; simpl.
  - by rewrite String.eqb_refl.
  - destruct (String.eqb k k') eqn:E; simpl.
    + by rewrite String.eqb_refl.
    + by rewrite E.
Qed.

Lemma dict_get_set_ne (k k' : string) (v : value) (d : dict) :
  k ≠ k' -> dict_get k' (dict_set k v d) = dict_get k' d.
Proof.
  intros Hne. induction d as [|[k0 v0] d IH]; simpl.
  - destruct (String.eqb k' k) eqn:E; [|done].
    apply String.eqb_eq in E. congruence.
  - destruct (String.eqb k k0) eqn:E; simpl.
    + apply String.eqb_eq in E. subst k0.
      destruct (String.eqb k' k) eqn:E'; [|done].
      apply String.eqb_eq in E'. congruence.
    + by rewrite IH.
Qed.

(** ** The store after a write *)

Section Store.
Implicit Types (c : string) (d : db_state) (q : query) (data : dict).

Lemma coll_with_new_eq c data d :
  coll c (with_new c data d) = coll c d ++ [StoredDoc (next_id d) data].
Proof. unfold coll at 1. simpl. by rewrite lookup_insert_eq. Qed.

Lemma coll_with_new_ne c c' data d :
  c ≠ c' -> coll c' (with_new c data d) = coll c' d.
Proof. intros Hne. unfold coll. simpl. by rewrite lookup_insert_ne. Qed.

Lemma coll_without_eq c q d :
  coll c (without c q d) = List.filter (fun x => negb (matches q x)) (coll c d).
Proof.
  unfold coll. simpl. rewrite lookup_alter_eq.
  by destruct (colls d !! c).
Qed.

Lemma coll_without_ne c c' q d :
  c ≠ c' -> coll c' (without c q d) = coll c' d.
Proof. intros Hne. unfold coll. simpl. by rewrite lookup_alter_ne. Qed.

Lemma healthy_with_new c data d : healthy d -> healthy (with_new c data d).
Proof. intros H o. apply H. Qed.

Lemma healthy_without c q d : healthy d -> healthy (without c q d).
Proof. intros H o. apply H. Qed.

Lemma client_call_ok {A : Type} (o : op) (f : db_state -> A * db_state) d :
  faults d o = None -> client_call o f (Some d) = (Ok (f d).1, Some (f d).2).
Proof. intros H. unfold client_call. rewrite H. by destruct (f d). Qed.

Lemma client_call_fault {A : Type} (o : op) (f : db_state -> A * db_state) d msg :
  faults d o = Some msg ->
  client_call o f (Some d) = (Raise (StoreOperationFailure o msg), Some d).
Proof. intros H. unfold client_call. by rewrite H. Qed.

Lemma create_document_ok c data d :
  faults d (OpInsert c) = None ->
  create_document c data (Some d) = (Ok (next_id d), Some (with_new c data d)).
Proof. intros H. unfold create_document, insert_one. by rewrite client_call_ok. Qed.

Lemma delete_many_ok c q d :
  faults d (OpDelete c) = None ->
  delete_many c q (Some d)
  = (Ok (length (List.filter (matches q) (coll c d))), Some (without c q d)).
Proof. intros H. unfold delete_many. by rewrite client_call_ok. Qed.

Lemma count_documents_ok c q d :
  faults d (OpCount c) = None ->
  count_documents c q (Some d)
  = (Ok (length (List.filter (matches q) (coll c d))), Some d).
Proof. intros H. unfold count_documents. by rewrite client_call_ok. Qed.

Lemma filter_all (l : list stored_doc) : List.filter (matches []) l = l.
Proof. induction l as [|x l IH]; simpl; [done | by rewrite IH]. Qed.

Lemma filter_none (l : list stored_doc) :
  List.filter (fun x => negb (matches [] x)) l = [].
Proof. induction l as [|x l IH]; simpl; done. Qed.
End Store.

(** ** Singleton upserts *)

Lemma set_profile_api_ok (payload : dict) (d : db_state) :
  faults d (OpDelete "profile") = None ->
  faults d (OpInsert "profile") = None ->
  set_profile_api payload (Some d)
  = (Ok {| inserted_id := next_id d |},
     Some (with_new "profile" payload (without "profile" [] d))).
Proof.
  intros Hd Hi. unfold set_profile_api, bind, require_db. cbv beta iota.
  rewrite (delete_many_ok _ _ _ Hd).
  by rewrite (create_document_ok "profile" payload (without "profile" [] d) Hi).
Qed.

Lemma profile_after_set (payload : dict) (d : db_state) :
  coll "profile" (with_new "profile" payload (without "profile" [] d))
  = [StoredDoc (next_id d) payload].
Proof. by rewrite coll_with_new_eq, coll_without_eq, filter_none. Qed.

Lemma serve_profile_healthy (payload : dict) (d : db_state) :
  healthy d ->
  serve (PostProfile payload) (Some d)
  = Some (with_new "profile" payload (without "profile" [] d)).
Proof.
  intros H. unfold serve, exec. by rewrite set_profile_api_ok.
Qed.

(** C1: on an available store, after one or more sequential set_profile
    calls the profile collection holds exactly one document, and it carries
    the payload of the last call; one call deletes every profile document
    and then inserts its payload. *)
Theorem set_profile_singleton (d : db_state) (payloads : list dict) :
  healthy d ->
  payloads ≠ [] ->
  (forall p, set_profile_api p (Some d)
             = (Ok {| inserted_id := next_id d |},
                Some (with_new "profile" p (without "profile" [] d)))) /\
  length (docs "profile" (serve_all (map PostProfile payloads) (Some d))) = 1 /\
  exists x, docs "profile" (serve_all (map PostProfile payloads) (Some d)) = [x]
            /\ Some (doc_fields x) = last payloads.
Proof.
  intros H Hne. split; [intros p; by apply set_profile_api_ok|].
  revert d H. induction payloads as [|p ps IH]; [done|]. intros d H.
  change (serve_all (map PostProfile (p :: ps)) (Some d))
    with (serve_all (map PostProfile ps) (serve (PostProfile p) (Some d))).
  rewrite (serve_profile_healthy p d H).
  destruct ps as [|p' ps].
  - unfold serve_all, docs. cbn [map foldl]. rewrite profile_after_set.
    split; [done|]. by eexists.
  - apply (IH ltac:(done)).
    by apply healthy_with_new, healthy_without.
Qed.

Lemma set_profile_singleton_witness :
  length (docs "profile"
            (serve_all (map PostProfile [seed_profile; []; seed_styles])
                       (Some empty_db))) = 1.
Proof.
  apply (set_profile_singleton empty_db [seed_profile; []; seed_styles]).
  - intros o. reflexivity.
  - discriminate.
Defined.

Lemma is_global_set_key (n : oid) (payload : dict) :
  is_global (StoredDoc n (dict_set "key" (VStr "global") payload)) = true.
Proof.
  unfold is_global, matches, global_key, field_is. simpl.
  by rewrite dict_get_set_eq.
Qed.

Lemma filter_global_others (l : list stored_doc) :
  List.filter is_global (List.filter (fun x => negb (is_global x)) l) = [].
Proof.
  induction l as [|x l IH]; [done|]. simpl.
  destruct (is_global x) eqn:E; simpl; [done|]. by rewrite E.
Qed.

Lemma set_styles_api_ok (payload : dict) (d : db_state) :
  faults d (OpDelete "styles") = None ->
  faults d (OpInsert "styles") = None ->
  set_styles_api payload (Some d)
  = (Ok {| inserted_id := next_id d |},
     Some (with_new "styles" (dict_set "key" (VStr "global") payload)
             (without "styles" global_key d))).
Proof.
  intros Hd Hi. unfold set_styles_api, bind, require_db. cbv beta iota.
  rewrite (delete_many_ok _ _ _ Hd).
  by rewrite (create_document_ok "styles" _ (without "styles" global_key d) Hi).
Qed.

(** C2: for every payload, set_styles deletes the styles documents matching
    key="global", sets the payload's key to "global" over whatever the caller
    gave, and inserts it: the stored document has key "global" and is the
    only styles document with that key. *)
Theorem set_styles_pins_key (payload : dict) (d : db_state) :
  faults d (OpDelete "styles") = None ->
  faults d (OpInsert "styles") = None ->
  let stored := StoredDoc (next_id d) (dict_set "key" (VStr "global") payload) in
  exists d',
    set_styles_api payload (Some d) = (Ok {| inserted_id := next_id d |}, Some d')
    /\ coll "styles" d'
       = List.filter (fun x => negb (is_global x)) (coll "styles" d) ++ [stored]
    /\ dict_get "key" (doc_fields stored) = Some (VStr "global")
    /\ List.filter is_global (coll "styles" d') = [stored].
Proof.
  intros Hd Hi stored. eexists. split; [by apply set_styles_api_ok|].
  rewrite coll_with_new_eq, coll_without_eq. split; [done|].
  split; [apply dict_get_set_eq|].
  rewrite List.filter_app, filter_global_others. simpl.
  fold stored. unfold stored at 1. by rewrite is_global_set_key.
Qed.

Lemma set_styles_pins_key_witness :
  exists d',
    set_styles_api [("key", VStr "nonsense"); ("theme", VStr "x")] (Some empty_db)
    = (Ok {| inserted_id := 0 |}, Some d')
    /\ coll "styles" d'
       = [StoredDoc 0 [("key", VStr "global"); ("theme", VStr "x")]].
Proof.
  destruct (set_styles_pins_key [("key", VStr "nonsense"); ("theme", VStr "x")]
              empty_db eq_refl eq_refl) as (d' & H1 & H2 & _).
  exists d'. split; [exact H1 | exact H2].
Defined.

(** ** Generic create *)

(** C8: create_document puts the caller's payload, as it is, at the end of
    the named collection under the generated identifier and returns that
    identifier; no payload is rejected, and the four create endpoints pass
    their payload through unchanged. *)
Theorem create_document_verbatim (c : string) (payload : dict) (d : db_state) :
  faults d (OpInsert c) = None ->
  exists d',
    create_document c payload (Some d) = (Ok (next_id d), Some d')
    /\ coll c d' = coll c d ++ [StoredDoc (next_id d) payload]
    /\ (forall c', c ≠ c' -> coll c' d' = coll c' d)
    /\ (c = "era" -> create_era payload (Some d)
                     = (Ok {| inserted_id := next_id d |}, Some d'))
    /\ (c = "project" -> create_project_api payload (Some d)
                         = (Ok {| inserted_id := next_id d |}, Some d'))
    /\ (c = "skill" -> create_skill_api payload (Some d)
                       = (Ok {| inserted_id := next_id d |}, Some d'))
    /\ (c = "achievement" -> create_achievement_api payload (Some d)
                             = (Ok {| inserted_id := next_id d |}, Some d')).
Proof.
  intros H. exists (with_new c payload d).
  split; [by apply create_document_ok|].
  split; [apply coll_with_new_eq|].
  split; [intros c' Hne; by apply coll_with_new_ne|].
  repeat split; intros ->;
    unfold create_era, create_project_api, create_skill_api,
      create_achievement_api, bind;
    by rewrite (create_document_ok _ payload d H).
Qed.

(** A skill whose level is outside the declared range 0-100 and which lacks
    nothing the endpoint asks for: it is stored as given. *)
Lemma create_document_verbatim_witness :
  Skill_level_in_range 250 = false /\
  exists d',
    create_skill_api [("name", VStr "Go"); ("level", VInt 250); ("extra", VNone)]
      (Some empty_db)
    = (Ok {| inserted_id := 0 |}, Some d')
    /\ coll "skill" d'
       = [StoredDoc 0 [("name", VStr "Go"); ("level", VInt 250); ("extra", VNone)]].
Proof.
  split; [reflexivity|].
  destruct (create_document_verbatim "skill"
              [("name", VStr "Go"); ("level", VInt 250); ("extra", VNone)]
              empty_db eq_refl) as (d' & _ & H2 & _ & _ & _ & H6 & _).
  exists d'. split; [exact (H6 eq_refl) | exact H2].
Defined.

(** ** The absent handle *)

(** C6: without a store handle, get_all_content, set_profile, set_styles and
    seed_demo raise the 500 "Database not available" error, create_document
    and the four create endpoints fail with StoreUnavailable, nothing is
    written, and the health endpoint still returns its report. *)
Theorem absent_handle_degrades (payload : dict) (c : string) (url : option string) :
  get_all_content None = (Raise db_unavailable, None)
  /\ create_document c payload None = (Raise StoreUnavailable, None)
  /\ create_era payload None = (Raise StoreUnavailable, None)
  /\ create_project_api payload None = (Raise StoreUnavailable, None)
  /\ create_skill_api payload None = (Raise StoreUnavailable, None)
  /\ create_achievement_api payload None = (Raise StoreUnavailable, None)
  /\ set_profile_api payload None = (Raise db_unavailable, None)
  /\ set_styles_api payload None = (Raise db_unavailable, None)
  /\ seed_demo None = (Raise db_unavailable, None)
  /\ db_unavailable = HTTPException 500 "Database not available"
  /\ test_database url None
     = Ok {| backend := "✅ Running";
             database := "⚠️  Available but not initialized";
             database_url := None;
             database_name := None;
             connection_status := "Not Connected";
             collections := [] |}.
Proof. repeat split. Qed.

(** ** Health check *)

(** C7: health_check returns a report for every handle and every store
    state, also when the handle is absent or an introspection call raises;
    the failure only shows in the text of the database field, and the report
    lists at most 10 collection names. *)
Theorem test_database_never_fails (url : option string) (db : handle) :
  exists r,
    test_database url db = Ok r
    /\ backend r = "✅ Running"
    /\ database r = degraded_text db
    /\ length (collections r) <= 10.
Proof.
  unfold test_database, test_database_body, try_except, bind, degraded_text.
  destruct db as [d|]; [|eexists; repeat split; simpl; lia].
  unfold getattr_name, list_collection_names.
  destruct (db_name d) as [|s|msg]; cbn;
    try (eexists; repeat split; simpl; lia);
    destruct (faults d OpListNames) as [msg|]; cbn;
    eexists; (split; [reflexivity|]); cbn; repeat split; try lia;
    rewrite length_take; lia.
Qed.

(** ** Seeding *)

Section Seed.
Implicit Types (c : string) (d : db_state) (l : list dict).

Lemma healthy_with_all c l d : healthy d -> healthy (with_all c l d).
Proof.
  revert d. induction l as [|x l IH]; intros d H; [done|].
  apply IH. by apply healthy_with_new.
Qed.

Lemma next_id_with_all c l d : next_id (with_all c l d) = next_id d + length l.
Proof.
  revert d. induction l as [|x l IH]; intros d; simpl; [lia|].
  unfold with_all in *. simpl. rewrite IH. simpl. lia.
Qed.

Lemma coll_with_all_eq c l d :
  coll c (with_all c l d) = coll c d ++ stamp (next_id d) l.
Proof.
  revert d. induction l as [|x l IH]; intros d; simpl.
  - by rewrite app_nil_r.
  - unfold with_all in *. simpl. rewrite IH, coll_with_new_eq.
    by rewrite <- app_assoc.
Qed.

Lemma coll_with_all_ne c c' l d : c ≠ c' -> coll c' (with_all c l d) = coll c' d.
Proof.
  intros Hne. revert d. induction l as [|x l IH]; intros d; [done|].
  unfold with_all in *. simpl. by rewrite IH, coll_with_new_ne.
Qed.

Lemma create_all_ok c l d :
  healthy d -> create_all c l (Some d) = (Ok tt, Some (with_all c l d)).
Proof.
  revert d. induction l as [|x l IH]; intros d H; [done|].
  unfold create_all in *. cbn [for_each]. unfold bind at 1 2.
  rewrite (create_document_ok c x d (H _)). unfold ret at 1.
  apply IH. by apply healthy_with_new.
Qed.

Lemma healthy_seeded d : healthy d -> healthy (seeded d).
Proof.
  intros H. unfold seeded.
  by repeat first [apply healthy_with_new | apply healthy_without
                  | apply healthy_with_all].
Qed.

Lemma seed_demo_short_circuit d :
  faults d (OpCount "era") = None ->
  coll "era" d ≠ [] ->
  seed_demo (Some d) = (Ok "already-seeded", Some d).
Proof.
  intros Hc Hne. unfold seed_demo, bind, require_db. cbv beta iota.
  rewrite (count_documents_ok _ _ _ Hc), filter_all.
  destruct (coll "era" d); [done | reflexivity].
Qed.

Lemma seed_demo_pass d :
  healthy d ->
  coll "era" d = [] ->
  seed_demo (Some d) = (Ok "seeded", Some (seeded d)).
Proof.
  intros H He. unfold seed_demo, bind, require_db. cbv beta iota.
  rewrite (count_documents_ok _ _ _ (H _)), filter_all, He. cbn [length Nat.ltb Nat.leb].
  rewrite (create_all_ok "era" seed_eras d H).
  set (d1 := with_all "era" seed_eras d).
  assert (H1 : healthy d1) by by apply healthy_with_all.
  rewrite (create_all_ok "project" demo_projects d1 H1).
  set (d2 := with_all "project" demo_projects d1).
  assert (H2 : healthy d2) by by apply healthy_with_all.
  rewrite (create_all_ok "skill" seed_skills d2 H2).
  set (d3 := with_all "skill" seed_skills d2).
  assert (H3 : healthy d3) by by apply healthy_with_all.
  rewrite (create_all_ok "achievement" seed_achievements d3 H3).
  set (d4 := with_all "achievement" seed_achievements d3).
  assert (H4 : healthy d4) by by apply healthy_with_all.
  rewrite (create_document_ok "profile" seed_profile d4 (H4 _)).
  set (d5 := with_new "profile" seed_profile d4).
  assert (H5 : healthy d5) by by apply healthy_with_new.
  rewrite (delete_many_ok "styles" global_key d5 (H5 _)).
  set (d6 := without "styles" global_key d5).
  assert (H6 : healthy d6) by by apply healthy_without.
  by rewrite (create_document_ok "styles" seed_styles d6 (H6 _)).
Qed.

Lemma next_id_without c q d : next_id (without c q d) = next_id d.
Proof. reflexivity. Qed.

Lemma next_id_with_new c x d : next_id (with_new c x d) = S (next_id d).
Proof. reflexivity. Qed.

Lemma seeded_era d : coll "era" (seeded d) = coll "era" d ++ stamp (next_id d) seed_eras.
Proof.
  unfold seeded.
  rewrite coll_with_new_ne, coll_without_ne, coll_with_new_ne by done.
  rewrite !coll_with_all_ne by done. apply coll_with_all_eq.
Qed.

Lemma seeded_project d :
  coll "project" (seeded d)
  = coll "project" d ++ stamp (next_id d + 5) demo_projects.
Proof.
  unfold seeded.
  rewrite coll_with_new_ne, coll_without_ne, coll_with_new_ne by done.
  rewrite !(coll_with_all_ne _ "project") by done.
  rewrite coll_with_all_eq, coll_with_all_ne by done.
  by rewrite next_id_with_all.
Qed.

Lemma seeded_skill d :
  coll "skill" (seeded d) = coll "skill" d ++ stamp (next_id d + 10) seed_skills.
Proof.
  unfold seeded.
  rewrite coll_with_new_ne, coll_without_ne, coll_with_new_ne by done.
  rewrite (coll_with_all_ne _ "skill") by done.
  rewrite coll_with_all_eq, !(coll_with_all_ne _ "skill") by done.
  rewrite !next_id_with_all. simpl length. do 2 f_equal. lia.
Qed.

Lemma seeded_achievement d :
  coll "achievement" (seeded d)
  = coll "achievement" d ++ stamp (next_id d + 13) seed_achievements.
Proof.
  unfold seeded.
  rewrite coll_with_new_ne, coll_without_ne, coll_with_new_ne by done.
  rewrite coll_with_all_eq, !(coll_with_all_ne _ "achievement") by done.
  rewrite !next_id_with_all. simpl length. do 2 f_equal. lia.
Qed.

Lemma seeded_profile d :
  coll "profile" (seeded d)
  = coll "profile" d ++ [StoredDoc (next_id d + 14) seed_profile].
Proof.
  unfold seeded.
  rewrite coll_with_new_ne, coll_without_ne, coll_with_new_eq by done.
  rewrite !(coll_with_all_ne _ "profile") by done.
  rewrite !next_id_with_all. simpl length. do 3 f_equal. lia.
Qed.

Lemma seeded_styles d :
  coll "styles" (seeded d)
  = List.filter (fun x => negb (is_global x)) (coll "styles" d)
    ++ [StoredDoc (next_id d + 15) seed_styles].
Proof.
  unfold seeded.
  rewrite coll_with_new_eq, coll_without_eq, coll_with_new_ne by done.
  rewrite !(coll_with_all_ne _ "styles") by done.
  rewrite next_id_without, next_id_with_new, !next_id_with_all.
  simpl length. do 3 f_equal. lia.
Qed.
End Seed.

Lemma length_stamp (n : oid) (l : list dict) : length (stamp n l) = length l.
Proof. revert n. induction l as [|x l IH]; intros n; simpl; [done | by rewrite IH]. Qed.

Lemma fields_stamp (n : oid) (l : list dict) : map doc_fields (stamp n l) = l.
Proof. revert n. induction l as [|x l IH]; intros n; simpl; [done | by rewrite IH]. Qed.

Lemma healthy_empty_db : healthy empty_db.
Proof. intros o. reflexivity. Qed.

(** C3: seed_demo is idempotent.  With a non-empty era collection it writes
    nothing and, the count being answered, returns "already-seeded"; from a
    store whose era collection is empty the first call seeds, the second one
    returns "already-seeded" and leaves the store, hence the era count, as
    the first call left it. *)
Theorem seed_demo_idempotent (d : db_state) :
  (coll "era" d ≠ [] -> exec seed_demo (Some d) = Some d)
  /\ (coll "era" d ≠ [] -> faults d (OpCount "era") = None ->
      seed_demo (Some d) = (Ok "already-seeded", Some d))
  /\ (healthy d -> coll "era" d = [] ->
      let once := exec seed_demo (Some d) in
      eval seed_demo (Some d) = Ok "seeded"
      /\ seed_demo once = (Ok "already-seeded", once)
      /\ length (docs "era" (exec seed_demo once)) = length (docs "era" once)).
Proof.
  split; [|split].
  - intros Hne. destruct (faults d (OpCount "era")) as [msg|] eqn:Hc.
    + unfold exec, seed_demo, bind, require_db, count_documents. cbv beta iota.
      by rewrite (client_call_fault _ _ _ _ Hc).
    + unfold exec. by rewrite seed_demo_short_circuit.
  - intros Hne Hc. by apply seed_demo_short_circuit.
  - intros H He once. subst once. unfold exec, eval.
    rewrite (seed_demo_pass d H He). cbn [fst snd].
    assert (Hs : seed_demo (Some (seeded d)) = (Ok "already-seeded", Some (seeded d))).
    { apply seed_demo_short_circuit; [apply healthy_seeded, H|].
      rewrite seeded_era, He. discriminate. }
    by rewrite Hs.
Qed.

Lemma seed_demo_idempotent_witness :
  (eval seed_demo (Some empty_db) = Ok "seeded"
   /\ length (docs "era" (exec seed_demo (exec seed_demo (Some empty_db))))
      = length (docs "era" (exec seed_demo (Some empty_db))))
  /\ seed_demo (Some (seeded empty_db)) = (Ok "already-seeded", Some (seeded empty_db)).
Proof.
  split.
  - destruct (seed_demo_idempotent empty_db) as (_ & _ & H).
    destruct (H healthy_empty_db eq_refl) as (H1 & _ & H3).
    split; [exact H1 | exact H3].
  - destruct (seed_demo_idempotent (seeded empty_db)) as (_ & H & _).
    apply H; [discriminate | reflexivity].
Defined.

(** C4: whenever the era collection is empty, whatever the other collections
    hold, seed_demo returns "seeded" after appending the 5 eras, 5 projects,
    3 skills, 1 achievement and 1 profile of the demo data to their
    collections and replacing the styles documents keyed "global" by
    {key: "global", theme: "cyber", glow: 0.7}. *)
Theorem seed_demo_inserts (d : db_state) :
  healthy d ->
  coll "era" d = [] ->
  exists d',
    seed_demo (Some d) = (Ok "seeded", Some d')
    /\ (map doc_fields (coll "era" d') = seed_eras /\ length seed_eras = 5)
    /\ (exists new, coll "project" d' = coll "project" d ++ new
                    /\ map doc_fields new = demo_projects
                    /\ length new = 5)
    /\ (exists new, coll "skill" d' = coll "skill" d ++ new
                    /\ map doc_fields new = seed_skills
                    /\ length new = 3)
    /\ (exists new, coll "achievement" d' = coll "achievement" d ++ new
                    /\ map doc_fields new = seed_achievements
                    /\ length new = 1)
    /\ (exists x, coll "profile" d' = coll "profile" d ++ [x]
                  /\ doc_fields x = seed_profile)
    /\ (exists x, coll "styles" d'
                  = List.filter (fun y => negb (is_global y)) (coll "styles" d) ++ [x]
                  /\ List.filter is_global (coll "styles" d') = [x]
                  /\ doc_fields x
                     = [("key", VStr "global"); ("theme", VStr "cyber");
                        ("glow", VFloat (QArith_base.Qmake 7 10))]).
Proof.
  intros H He. exists (seeded d). split; [by apply seed_demo_pass|].
  split; [|split; [|split; [|split; [|split]]]].
  - rewrite seeded_era, He, app_nil_l. by rewrite fields_stamp.
  - eexists. split; [apply seeded_project|]. by rewrite fields_stamp, length_stamp.
  - eexists. split; [apply seeded_skill|]. by rewrite fields_stamp, length_stamp.
  - eexists. split; [apply seeded_achievement|]. by rewrite fields_stamp, length_stamp.
  - eexists. split; [apply seeded_profile|done].
  - eexists. split; [apply seeded_styles|]. split; [|done].
    rewrite seeded_styles, List.filter_app, filter_global_others. reflexivity.
Qed.

Lemma seed_demo_inserts_witness :
  exists d',
    seed_demo (Some (with_new "project" [("title", VStr "Old")] empty_db))
    = (Ok "seeded", Some d')
    /\ length (coll "project" d') = 6.
Proof.
  destruct (seed_demo_inserts (with_new "project" [("title", VStr "Old")] empty_db))
    as (d' & H1 & _ & (new & H2 & _ & H3) & _).
  - intros o. reflexivity.
  - reflexivity.
  - exists d'. split; [exact H1|].
    rewrite H2, length_app, H3. reflexivity.
Defined.

(** C10: the profile step of seed_demo appends the demo profile to whatever
    the profile collection holds: with an empty era collection and a
    non-empty profile collection, the profile collection holds more than one
    document after seed_demo. *)
Theorem seed_demo_breaks_profile_singleton (d : db_state) :
  healthy d ->
  coll "era" d = [] ->
  coll "profile" d ≠ [] ->
  eval seed_demo (Some d) = Ok "seeded"
  /\ (exists x, docs "profile" (exec seed_demo (Some d)) = coll "profile" d ++ [x]
                /\ doc_fields x = seed_profile)
  /\ 1 < length (docs "profile" (exec seed_demo (Some d))).
Proof.
  intros H He Hp. unfold eval, exec. rewrite (seed_demo_pass d H He).
  cbn [fst snd docs]. rewrite seeded_profile. split; [done|].
  split; [by eexists|].
  rewrite length_app. simpl. destruct (coll "profile" d); [done | simpl; lia].
Qed.

Lemma seed_demo_breaks_profile_singleton_witness :
  1 < length (docs "profile"
                (exec seed_demo (Some (with_new "profile" seed_profile empty_db)))).
Proof.
  apply (seed_demo_breaks_profile_singleton (with_new "profile" seed_profile empty_db)).
  - intros o. reflexivity.
  - reflexivity.
  - discriminate.
Defined.

(** ** Aggregate read *)

Lemma get_documents_ok (c : string) (d : db_state) :
  faults d (OpFind c) = None -> get_documents c (Some d) = (Ok (coll c d), Some d).
Proof. intros H. unfold get_documents. by rewrite H. Qed.

Lemma get_documents_fault (c msg : string) (d : db_state) :
  faults d (OpFind c) = Some msg ->
  get_documents c (Some d) = (Raise (StoreOperationFailure (OpFind c) msg), Some d).
Proof. intros H. unfold get_documents. by rewrite H. Qed.

(** The styles sub-query with its handler never raises. *)
Lemma styles_lookup_total (d : db_state) :
  exists s,
    styles_lookup (Some d) = (Ok s, Some d)
    /\ (is_Some (faults d (OpFind "styles"))
        \/ List.filter (matches global_key) (coll "styles" d) = [] ->
        s = Literal default_styles).
Proof.
  unfold styles_lookup, try_except, bind, find_limit.
  destruct (faults d (OpFind "styles")) as [msg|] eqn:Hf.
  - rewrite (client_call_fault _ _ _ _ Hf). eexists. split; [reflexivity|done].
  - rewrite (client_call_ok _ _ _ Hf). cbn [fst snd]. eexists.
    split; [reflexivity|]. intros [[m Hm]|He]; [done|]. by rewrite He.
Qed.

(** C5: get_all_content does not propagate a failure of the styles
    sub-query.  When the list and profile lookups answer, it returns a
    bundle, and its styles field is the literal default whenever the styles
    lookup raises or finds no document with key "global"; a failure of one
    of the four list lookups is propagated; every error it raises comes
    from a lookup on another collection than styles. *)
Theorem get_all_content_styles_fallback (d : db_state) :
  ((forall c, c ∈ "profile" :: list_lookups -> faults d (OpFind c) = None) ->
   is_Some (faults d (OpFind "styles"))
   \/ List.filter is_global (coll "styles" d) = [] ->
   exists b, get_all_content (Some d) = (Ok b, Some d)
             /\ styles b = Literal default_styles)
  /\ (forall c, c ∈ list_lookups -> is_Some (faults d (OpFind c)) ->
      exists c' msg, c' ∈ list_lookups
        /\ get_all_content (Some d)
           = (Raise (StoreOperationFailure (OpFind c') msg), Some d))
  /\ (forall e, eval get_all_content (Some d) = Raise e ->
      exists c msg, c ≠ "styles" /\ e = StoreOperationFailure (OpFind c) msg).
Proof.
  destruct (styles_lookup_total d) as (s & Hs & Hdef).
  split; [|split].
  - intros Hok Hst.
    unfold get_all_content, bind, require_db. cbv beta iota.
    rewrite !get_documents_ok
      by (apply Hok; unfold list_lookups; repeat constructor).
    rewrite Hs. eexists. split; [reflexivity|]. simpl. by apply Hdef.
  - intros c Hc Hf.
    unfold get_all_content, bind, require_db. cbv beta iota.
    destruct (faults d (OpFind "era")) as [m1|] eqn:H1.
    { rewrite (get_documents_fault _ _ _ H1). exists "era", m1.
      split; [unfold list_lookups; repeat constructor | done]. }
    rewrite (get_documents_ok _ _ H1).
    destruct (faults d (OpFind "project")) as [m2|] eqn:H2.
    { rewrite (get_documents_fault _ _ _ H2). exists "project", m2.
      split; [unfold list_lookups; repeat constructor | done]. }
    rewrite (get_documents_ok _ _ H2).
    destruct (faults d (OpFind "skill")) as [m3|] eqn:H3.
    { rewrite (get_documents_fault _ _ _ H3). exists "skill", m3.
      split; [unfold list_lookups; repeat constructor | done]. }
    rewrite (get_documents_ok _ _ H3).
    destruct (faults d (OpFind "achievement")) as [m4|] eqn:H4.
    { rewrite (get_documents_fault _ _ _ H4). exists "achievement", m4.
      split; [unfold list_lookups; repeat constructor | done]. }
    exfalso. destruct Hf as [m Hm].
    unfold list_lookups in Hc.
    repeat (apply elem_of_cons in Hc as [->|Hc]; [congruence|]).
    by apply elem_of_nil in Hc.
  - unfold eval, get_all_content, bind, require_db. cbv beta iota.
    intros e.
    destruct (faults d (OpFind "era")) as [m1|] eqn:H1.
    { rewrite (get_documents_fault _ _ _ H1). intros [= <-]. by exists "era", m1. }
    rewrite (get_documents_ok _ _ H1).
    destruct (faults d (OpFind "project")) as [m2|] eqn:H2.
    { rewrite (get_documents_fault _ _ _ H2). intros [= <-]. by exists "project", m2. }
    rewrite (get_documents_ok _ _ H2).
    destruct (faults d (OpFind "skill")) as [m3|] eqn:H3.
    { rewrite (get_documents_fault _ _ _ H3). intros [= <-]. by exists "skill", m3. }
    rewrite (get_documents_ok _ _ H3).
    destruct (faults d (OpFind "achievement")) as [m4|] eqn:H4.
    { rewrite (get_documents_fault _ _ _ H4). intros [= <-].
      by exists "achievement", m4. }
    rewrite (get_documents_ok _ _ H4).
    destruct (faults d (OpFind "profile")) as [m5|] eqn:H5.
    { rewrite (get_documents_fault _ _ _ H5). intros [= <-]. by exists "profile", m5. }
    rewrite (get_documents_ok _ _ H5), Hs. discriminate.
Qed.

Lemma get_all_content_styles_fallback_witness :
  (exists b, get_all_content (Some (failing (OpFind "styles") "boom" empty_db))
             = (Ok b, Some (failing (OpFind "styles") "boom" empty_db))
             /\ styles b = Literal default_styles)
  /\ (exists b, get_all_content (Some empty_db) = (Ok b, Some empty_db)
                /\ styles b = Literal default_styles)
  /\ (exists c' msg, c' ∈ list_lookups
        /\ get_all_content (Some (failing (OpFind "skill") "down" empty_db))
           = (Raise (StoreOperationFailure (OpFind c') msg),
              Some (failing (OpFind "skill") "down" empty_db)))
  /\ (exists c msg, c ≠ "styles"
        /\ Raise (A := content) (StoreOperationFailure (OpFind "skill") "down")
           = Raise (StoreOperationFailure (OpFind c) msg)).
Proof.
  split; [|split; [|split]].
  - apply (proj1 (get_all_content_styles_fallback
                    (failing (OpFind "styles") "boom" empty_db))).
    + intros c Hc. unfold list_lookups in Hc.
      repeat (apply elem_of_cons in Hc as [->|Hc]; [reflexivity|]).
      by apply elem_of_nil in Hc.
    + left. by eexists.
  - apply (proj1 (get_all_content_styles_fallback empty_db)).
    + intros c Hc. reflexivity.
    + right. reflexivity.
  - apply (proj1 (proj2 (get_all_content_styles_fallback
                           (failing (OpFind "skill") "down" empty_db))) "skill").
    + unfold list_lookups. repeat constructor.
    + by eexists.
  - destruct (proj2 (proj2 (get_all_content_styles_fallback
                              (failing (OpFind "skill") "down" empty_db)))
                (StoreOperationFailure (OpFind "skill") "down") eq_refl)
      as (c & msg & Hne & He).
    exists c, msg. split; [exact Hne | by rewrite He].
Defined.

(** ** Frame: styles documents of other keys *)

Section Frame.
Context {A B : Type}.
Implicit Types (c : string) (q : query) (data : dict).


Lemma keeps_raise (e : exn) : keeps_other_styles (raise (A := A) e).
Proof. by intros db. Qed.



End Frame.




















(** * Further properties of the endpoints *)

(** ** Rules for assertions *)

Section Hoare.
Context {A B : Type}.
Implicit Types (P E I : handle -> Prop).

Lemma bind_ok (m : ST handle A) (k : A -> ST handle B) (db db' : handle) (a : A) :
  m db = (Ok a, db') -> bind m k db = k a db'.
Proof. intros H. unfold bind. by rewrite H. Qed.

Lemma bind_raise (m : ST handle A) (k : A -> ST handle B) (db db' : handle) (e : exn) :
  m db = (Raise e, db') -> bind m k db = (Raise e, db').
Proof. intros H. unfold bind. by rewrite H. Qed.

Lemma hoare_ret P (Q : A -> handle -> Prop) E (a : A) :
  (forall db, P db -> Q a db) -> hoare P (ret a) Q E.
Proof. intros H db HP. by apply H. Qed.

Lemma hoare_bind P (R : A -> handle -> Prop) (Q : B -> handle -> Prop) E
    (m : ST handle A) (k : A -> ST handle B) :
  hoare P m R E -> (forall a, hoare (R a) (k a) Q E) -> hoare P (bind m k) Q E.
Proof.
  intros Hm Hk db HP. specialize (Hm db HP). unfold bind.
  destruct (m db) as [[a|e] db']; [by apply Hk | done].
Qed.

Lemma hoare_try_except P E' (Q : A -> handle -> Prop) E
    (m : ST handle A) (h : exn -> ST handle A) :
  hoare P m Q E' -> (forall e, hoare E' (h e) Q E) -> hoare P (try_except m h) Q E.
Proof.
  intros Hm Hh db HP. specialize (Hm db HP). unfold try_except.
  destruct (m db) as [[a|e] db']; [done | by apply Hh].
Qed.

Lemma hoare_client_call P (Q : A -> handle -> Prop) E (o : op)
    (f : db_state -> A * db_state) :
  (forall d, P (Some d) -> faults d o = None -> Q (f d).1 (Some (f d).2)) ->
  (forall db, P db -> E db) ->
  hoare P (client_call o f) Q E.
Proof.
  intros HQ HE [d|] HP; unfold client_call; [|by apply HE].
  destruct (faults d o) eqn:Hf; [by apply HE|].
  specialize (HQ d HP Hf). by destruct (f d).
Qed.

Lemma preserved_read_only I (m : ST handle A) : read_only m -> preserved I m.
Proof.
  intros Hm db HI. specialize (Hm db).
  destruct (m db) as [[a|e] db']; simpl in Hm; by subst.
Qed.

Lemma preserved_bind I (m : ST handle A) (k : A -> ST handle B) :
  preserved I m -> (forall a, preserved I (k a)) -> preserved I (bind m k).
Proof. intros Hm Hk. by apply (hoare_bind I (fun _ => I)). Qed.

Lemma preserved_exec I (m : ST handle A) (db : handle) :
  preserved I m -> I db -> I (exec m db).
Proof.
  intros Hm HI. specialize (Hm db HI). unfold exec.
  by destruct (m db) as [[a|e] db'].
Qed.
End Hoare.

Lemma preserved_ret {A : Type} (I : handle -> Prop) (a : A) : preserved I (ret a).
Proof. by apply hoare_ret. Qed.

Lemma preserved_for_each {A : Type} (I : handle -> Prop) (l : list A)
    (body : A -> ST handle unit) :
  (forall x, preserved I (body x)) -> preserved I (for_each l body).
Proof.
  intros Hb. induction l as [|x l IH]; cbn [for_each].
  - apply preserved_ret.
  - apply preserved_bind; [apply Hb | intros _; apply IH].
Qed.

Lemma read_only_require_db : read_only require_db.
Proof. by intros [d|]. Qed.

Lemma read_only_get_documents (c : string) : read_only (get_documents c).
Proof. intros [d|]; [|done]. unfold get_documents. by destruct (faults d _). Qed.

Lemma read_only_client_call {A : Type} (o : op) (g : db_state -> A) :
  read_only (client_call o (fun d => (g d, d))).
Proof. intros [d|]; [|done]. unfold client_call. by destruct (faults d o). Qed.

Lemma read_only_find_limit (c : string) (q : query) (n : nat) :
  read_only (find_limit c q n).
Proof. apply read_only_client_call. Qed.

Lemma read_only_count_documents (c : string) (q : query) :
  read_only (count_documents c q).
Proof. apply read_only_client_call. Qed.

Lemma preserved_styles_lookup (I : handle -> Prop) : preserved I styles_lookup.
Proof.
  apply (hoare_try_except I I); [|intros _; apply preserved_ret].
  apply preserved_bind; [|intros found; apply preserved_ret].
  apply preserved_read_only, read_only_find_limit.
Qed.

Lemma preserved_get_all_content (I : handle -> Prop) : preserved I get_all_content.
Proof.
  unfold get_all_content.
  apply preserved_bind;
    [apply preserved_read_only, read_only_require_db | intros _].
  do 5 (apply preserved_bind;
          [apply preserved_read_only, read_only_get_documents | intros ?]).
  apply preserved_bind; [apply preserved_styles_lookup | intros ?].
  apply preserved_ret.
Qed.

(** ** Aggregate read: what it returns and when *)

(** X1: get_all_content writes nothing: the handle and every collection are
    the same after it as before, whether it returns a bundle or raises. *)
Theorem get_all_content_read_only (db : handle) :
  exec get_all_content db = db.
Proof.
  by apply (preserved_exec (fun x => x = db) get_all_content db
              (preserved_get_all_content _)).
Qed.

Lemma styles_lookup_value (d : db_state) :
  styles_lookup (Some d) = (Ok (styles_of d), Some d).
Proof.
  unfold styles_lookup, styles_of, try_except, bind, find_limit.
  destruct (faults d (OpFind "styles")) as [msg|] eqn:Hf.
  - by rewrite (client_call_fault _ _ _ _ Hf).
  - rewrite (client_call_ok _ _ _ Hf). cbn [fst snd]. unfold ret.
    change (List.filter (matches global_key)) with (List.filter is_global).
    by destruct (List.filter is_global (coll "styles" d)).
Qed.

Lemma lookups_answer_elim (d : db_state) :
  lookups_answer d ->
  faults d (OpFind "era") = None /\ faults d (OpFind "project") = None
  /\ faults d (OpFind "skill") = None /\ faults d (OpFind "achievement") = None
  /\ faults d (OpFind "profile") = None.
Proof.
  unfold lookups_answer, list_lookups. cbn [app]. intros H.
  repeat (apply Forall_cons in H as [? H]). done.
Qed.

Lemma get_all_content_ok (d : db_state) :
  lookups_answer d -> get_all_content (Some d) = (Ok (bundle_of d), Some d).
Proof.
  intros (H1 & H2 & H3 & H4 & H5)%lookups_answer_elim.
  unfold get_all_content, bind, require_db. cbv beta iota.
  rewrite (get_documents_ok _ _ H1), (get_documents_ok _ _ H2),
    (get_documents_ok _ _ H3), (get_documents_ok _ _ H4),
    (get_documents_ok _ _ H5), styles_lookup_value.
  reflexivity.
Qed.

(** X2: on a present handle get_all_content returns a bundle exactly when
    the era, project, skill, achievement and profile lookups all answer; a
    failing profile lookup makes it raise like a failing list lookup, a
    failing styles lookup does not. *)
Theorem get_all_content_returns_iff (d : db_state) :
  (exists b, eval get_all_content (Some d) = Ok b) <-> lookups_answer d.
Proof.
  split.
  - intros [b Hb]. unfold eval, get_all_content, bind, require_db in Hb.
    cbv beta iota in Hb.
    destruct (faults d (OpFind "era")) as [m|] eqn:H1;
      [by rewrite (get_documents_fault _ _ _ H1) in Hb|].
    rewrite (get_documents_ok _ _ H1) in Hb.
    destruct (faults d (OpFind "project")) as [m|] eqn:H2;
      [by rewrite (get_documents_fault _ _ _ H2) in Hb|].
    rewrite (get_documents_ok _ _ H2) in Hb.
    destruct (faults d (OpFind "skill")) as [m|] eqn:H3;
      [by rewrite (get_documents_fault _ _ _ H3) in Hb|].
    rewrite (get_documents_ok _ _ H3) in Hb.
    destruct (faults d (OpFind "achievement")) as [m|] eqn:H4;
      [by rewrite (get_documents_fault _ _ _ H4) in Hb|].
    rewrite (get_documents_ok _ _ H4) in Hb.
    destruct (faults d (OpFind "profile")) as [m|] eqn:H5;
      [by rewrite (get_documents_fault _ _ _ H5) in Hb|].
    unfold lookups_answer, list_lookups. cbn [app]. by repeat constructor.
  - intros H. exists (bundle_of d). unfold eval. by rewrite get_all_content_ok.
Qed.



Lemma get_all_content_returns_iff_witness :
  exists b, eval get_all_content (Some empty_db) = Ok b.
Proof.
  apply (proj2 (get_all_content_returns_iff empty_db)).
  unfold lookups_answer, list_lookups. cbn [app]. by repeat constructor.
Defined.

(** ** Reading back what was written *)

Lemma create_document_fault (c msg : string) (data : dict) (d : db_state) :
  faults d (OpInsert c) = Some msg ->
  create_document c data (Some d)
  = (Raise (StoreOperationFailure (OpInsert c) msg), Some d).
Proof.
  intros H. unfold create_document, insert_one. by rewrite (client_call_fault _ _ _ _ H).
Qed.

Lemma delete_many_fault (c msg : string) (q : query) (d : db_state) :
  faults d (OpDelete c) = Some msg ->
  delete_many c q (Some d) = (Raise (StoreOperationFailure (OpDelete c) msg), Some d).
Proof. intros H. unfold delete_many. by rewrite (client_call_fault _ _ _ _ H). Qed.

Lemma create_endpoint_ok (c : string) (payload : dict) (d : db_state) :
  faults d (OpInsert c) = None ->
  (x <- create_document c payload ;; ret {| inserted_id := x |}) (Some d)
  = (Ok {| inserted_id := next_id d |}, Some (with_new c payload d)).
Proof. intros H. unfold bind. by rewrite (create_document_ok _ _ _ H). Qed.

Lemma read_after (m : ST handle inserted) (d d' : db_state) (r : inserted) :
  m (Some d) = (Ok r, Some d') ->
  lookups_answer d' ->
  eval (m ;;; get_all_content) (Some d) = Ok (bundle_of d').
Proof.
  intros Hm Hl. unfold eval. rewrite (bind_ok _ _ _ _ _ Hm).
  by rewrite get_all_content_ok.
Qed.

(** X4: a document created through one of the four create endpoints is read
    back by the next get_all_content as the last element of its list, with
    the payload as given and the identifier the endpoint returned; the three
    other lists are as before. *)
Theorem create_then_read (payload : dict) (d : db_state) :
  lookups_answer d ->
  (faults d (OpInsert "era") = None ->
   exists b, eval (create_era payload ;;; get_all_content) (Some d) = Ok b
     /\ eval (create_era payload) (Some d) = Ok {| inserted_id := next_id d |}
     /\ eras b = coll "era" d ++ [StoredDoc (next_id d) payload]
     /\ projects b = coll "project" d /\ skills b = coll "skill" d
     /\ achievements b = coll "achievement" d)
  /\ (faults d (OpInsert "project") = None ->
      exists b, eval (create_project_api payload ;;; get_all_content) (Some d) = Ok b
        /\ eval (create_project_api payload) (Some d)
           = Ok {| inserted_id := next_id d |}
        /\ projects b = coll "project" d ++ [StoredDoc (next_id d) payload]
        /\ eras b = coll "era" d /\ skills b = coll "skill" d
        /\ achievements b = coll "achievement" d)
  /\ (faults d (OpInsert "skill") = None ->
      exists b, eval (create_skill_api payload ;;; get_all_content) (Some d) = Ok b
        /\ eval (create_skill_api payload) (Some d)
           = Ok {| inserted_id := next_id d |}
        /\ skills b = coll "skill" d ++ [StoredDoc (next_id d) payload]
        /\ eras b = coll "era" d /\ projects b = coll "project" d
        /\ achievements b = coll "achievement" d)
  /\ (faults d (OpInsert "achievement") = None ->
      exists b,
        eval (create_achievement_api payload ;;; get_all_content) (Some d) = Ok b
        /\ eval (create_achievement_api payload) (Some d)
           = Ok {| inserted_id := next_id d |}
        /\ achievements b = coll "achievement" d ++ [StoredDoc (next_id d) payload]
        /\ eras b = coll "era" d /\ projects b = coll "project" d
        /\ skills b = coll "skill" d).
Proof.
  intros Hl.
  repeat split; intros Hi; eexists;
    (split; [eapply read_after; [by apply create_endpoint_ok | exact Hl]|]);
    (split; [unfold eval;
             unfold create_era, create_project_api, create_skill_api,
               create_achievement_api;
             by rewrite create_endpoint_ok|]);
    cbn [bundle_of eras projects skills achievements];
    rewrite coll_with_new_eq, !coll_with_new_ne by done; done.
Qed.

Lemma create_then_read_witness :
  exists b,
    eval (create_skill_api [("name", VStr "Go"); ("level", VInt 70);
                            ("category", VStr "Backend")] ;;; get_all_content)
      (Some (seeded empty_db)) = Ok b
    /\ last (skills b)
       = Some (StoredDoc 16 [("name", VStr "Go"); ("level", VInt 70);
                             ("category", VStr "Backend")]).
Proof.
  destruct (create_then_read [("name", VStr "Go"); ("level", VInt 70);
                              ("category", VStr "Backend")] (seeded empty_db))
    as (_ & _ & H & _).
  - unfold lookups_answer, list_lookups. cbn [app]. by repeat constructor.
  - destruct (H eq_refl) as (b & Hb & _ & Hs & _).
    exists b. split; [exact Hb|]. rewrite Hs. reflexivity.
Defined.

(** X5: after a set_profile that went through, get_all_content returns the
    payload just set as the profile, under the identifier set_profile
    returned, whatever the profile collection held before. *)
Theorem set_profile_then_read (payload : dict) (d : db_state) :
  lookups_answer d ->
  faults d (OpDelete "profile") = None ->
  faults d (OpInsert "profile") = None ->
  exists b,
    eval (set_profile_api payload ;;; get_all_content) (Some d) = Ok b
    /\ profile b = Some (StoredDoc (next_id d) payload)
    /\ eval (set_profile_api payload) (Some d) = Ok {| inserted_id := next_id d |}.
Proof.
  intros Hl Hd Hi. eexists. split.
  - eapply read_after; [by apply set_profile_api_ok | exact Hl].
  - split; [|unfold eval; by rewrite set_profile_api_ok].
    cbn [bundle_of profile]. by rewrite profile_after_set.
Qed.

Lemma set_profile_then_read_witness :
  exists b,
    eval (set_profile_api [("name", VStr "Ada")] ;;; get_all_content)
      (Some (seeded empty_db)) = Ok b
    /\ profile b = Some (StoredDoc 16 [("name", VStr "Ada")]).
Proof.
  destruct (set_profile_then_read [("name", VStr "Ada")] (seeded empty_db))
    as (b & Hb & Hp & _); [|reflexivity|reflexivity|].
  - unfold lookups_answer, list_lookups. cbn [app]. by repeat constructor.
  - exists b. split; [exact Hb | exact Hp].
Defined.

Lemma global_after_set (payload : dict) (d : db_state) :
  List.filter is_global
    (coll "styles" (with_new "styles" (dict_set "key" (VStr "global") payload)
                      (without "styles" global_key d)))
  = [StoredDoc (next_id d) (dict_set "key" (VStr "global") payload)].
Proof.
  rewrite coll_with_new_eq, coll_without_eq, List.filter_app, filter_global_others.
  cbn [List.filter app next_id without set_colls]. by rewrite is_global_set_key.
Qed.

(** X6: after a set_styles that went through, get_all_content returns as
    styles the document just stored (the payload with key "global") under
    the identifier set_styles returned, whatever the styles collection held
    before, documents of other keys included. *)
Theorem set_styles_then_read (payload : dict) (d : db_state) :
  lookups_answer d ->
  faults d (OpFind "styles") = None ->
  faults d (OpDelete "styles") = None ->
  faults d (OpInsert "styles") = None ->
  exists b,
    eval (set_styles_api payload ;;; get_all_content) (Some d) = Ok b
    /\ styles b
       = FromStore (StoredDoc (next_id d) (dict_set "key" (VStr "global") payload))
    /\ eval (set_styles_api payload) (Some d) = Ok {| inserted_id := next_id d |}.
Proof.
  intros Hl Hf Hd Hi. eexists. split.
  - eapply read_after; [by apply set_styles_api_ok | exact Hl].
  - split; [|unfold eval; by rewrite set_styles_api_ok].
    cbn [bundle_of styles]. unfold styles_of.
    change (faults (with_new "styles" (dict_set "key" (VStr "global") payload)
                      (without "styles" global_key d)) (OpFind "styles"))
      with (faults d (OpFind "styles")).
    by rewrite Hf, global_after_set.
Qed.

Lemma set_styles_then_read_witness :
  exists b,
    eval (set_styles_api [("theme", VStr "x"); ("key", VStr "nonsense")]
          ;;; get_all_content)
      (Some (with_new "styles" [("key", VStr "draft")] (seeded empty_db))) = Ok b
    /\ styles b
       = FromStore (StoredDoc 17 [("theme", VStr "x"); ("key", VStr "global")]).
Proof.
  destruct (set_styles_then_read [("theme", VStr "x"); ("key", VStr "nonsense")]
              (with_new "styles" [("key", VStr "draft")] (seeded empty_db)))
    as (b & Hb & Hs & _); [|reflexivity|reflexivity|reflexivity|].
  - unfold lookups_answer, list_lookups. cbn [app]. by repeat constructor.
  - exists b. split; [exact Hb | exact Hs].
Defined.

Lemma length_dict_set (k : string) (v : value) (f : dict) :
  length (dict_set k v f)
  = match dict_get k f with Some _ => length f | None => S (length f) end.
Proof.
  induction f as [|[k' v'] f IH]; [done|]. simpl.
  destruct (String.eqb k k'); simpl; [done|].
  rewrite IH. by destruct (dict_get k f).
Qed.

(** X7: set_styles changes nothing of the payload but its key: every other
    field of the stored document is the payload's, and the key is
    overwritten in place when the caller gave one, added otherwise. *)
Theorem set_styles_keeps_fields (payload : dict) (d : db_state) :
  faults d (OpDelete "styles") = None ->
  faults d (OpInsert "styles") = None ->
  exists x,
    last (docs "styles" (exec (set_styles_api payload) (Some d))) = Some x
    /\ (forall k, k ≠ "key" -> dict_get k (doc_fields x) = dict_get k payload)
    /\ length (doc_fields x)
       = match dict_get "key" payload with
         | Some _ => length payload
         | None => S (length payload)
         end.
Proof.
  intros Hd Hi. unfold exec. rewrite (set_styles_api_ok payload d Hd Hi).
  cbn [snd docs]. rewrite coll_with_new_eq, last_snoc. eexists.
  split; [reflexivity|]. cbn [doc_fields]. split.
  - intros k Hk. apply dict_get_set_ne. congruence.
  - apply length_dict_set.
Qed.

Lemma set_styles_keeps_fields_witness :
  exists x,
    last (docs "styles"
            (exec (set_styles_api [("theme", VStr "x"); ("key", VStr "nonsense")])
                  (Some empty_db))) = Some x
    /\ dict_get "theme" (doc_fields x) = Some (VStr "x")
    /\ length (doc_fields x) = 2.
Proof.
  destruct (set_styles_keeps_fields [("theme", VStr "x"); ("key", VStr "nonsense")]
              empty_db eq_refl eq_refl) as (x & Hx & Hk & Hn).
  exists x. split; [exact Hx|]. split; [|exact Hn].
  rewrite (Hk "theme"); [reflexivity | discriminate].
Defined.

(** ** Failures between the delete and the insert *)

(** X8: set_profile is not atomic.  When the delete raises, nothing has
    changed; when the delete went through and the insert raises, the request
    fails with the insert's error and the profile collection is left empty:
    the previous profile is lost.  No other collection is touched. *)
Theorem set_profile_failure (payload : dict) (d : db_state) (msg : string) :
  (faults d (OpDelete "profile") = Some msg ->
   set_profile_api payload (Some d)
   = (Raise (StoreOperationFailure (OpDelete "profile") msg), Some d))
  /\ (faults d (OpDelete "profile") = None ->
      faults d (OpInsert "profile") = Some msg ->
      eval (set_profile_api payload) (Some d)
      = Raise (StoreOperationFailure (OpInsert "profile") msg)
      /\ docs "profile" (exec (set_profile_api payload) (Some d)) = []
      /\ forall c, c ≠ "profile" ->
           docs c (exec (set_profile_api payload) (Some d)) = coll c d).
Proof.
  split.
  - intros Hd. unfold set_profile_api, bind, require_db. cbv beta iota.
    by rewrite (delete_many_fault _ _ _ _ Hd).
  - intros Hd Hi.
    assert (H : set_profile_api payload (Some d)
                = (Raise (StoreOperationFailure (OpInsert "profile") msg),
                   Some (without "profile" [] d))).
    { unfold set_profile_api, bind, require_db. cbv beta iota.
      rewrite (delete_many_ok _ _ _ Hd).
      by rewrite (create_document_fault "profile" msg payload
                    (without "profile" [] d) Hi). }
    unfold eval, exec. rewrite H. cbn [fst snd docs].
    split; [done|]. split.
    + by rewrite coll_without_eq, filter_none.
    + intros c Hc. by rewrite coll_without_ne.
Qed.

Lemma set_profile_failure_witness :
  docs "profile"
    (exec (set_profile_api [("name", VStr "Ada")])
          (Some (failing (OpInsert "profile") "disk full" (seeded empty_db)))) = []
  /\ docs "profile" (Some (seeded empty_db)) = [StoredDoc 14 seed_profile]
  /\ exec (set_profile_api [("name", VStr "Ada")])
          (Some (failing (OpDelete "profile") "down" (seeded empty_db)))
     = Some (failing (OpDelete "profile") "down" (seeded empty_db)).
Proof.
  split; [|split; [reflexivity|]].
  - apply (proj2 (set_profile_failure [("name", VStr "Ada")]
                    (failing (OpInsert "profile") "disk full" (seeded empty_db))
                    "disk full")); reflexivity.
  - unfold exec.
    by rewrite (proj1 (set_profile_failure [("name", VStr "Ada")]
                         (failing (OpDelete "profile") "down" (seeded empty_db))
                         "down") eq_refl).
Defined.



Lemma create_all_inserts (c : string) (l : list dict) (d : db_state) :
  faults d (OpInsert c) = None ->
  create_all c l (Some d) = (Ok tt, Some (with_all c l d)).
Proof.
  revert d. induction l as [|x l IH]; intros d H; [done|].
  unfold create_all in *. cbn [for_each]. unfold bind at 1 2.
  rewrite (create_document_ok c x d H). unfold ret at 1.
  by apply IH.
Qed.

Lemma create_all_fault (c msg : string) (x : dict) (l : list dict) (d : db_state) :
  faults d (OpInsert c) = Some msg ->
  create_all c (x :: l) (Some d)
  = (Raise (StoreOperationFailure (OpInsert c) msg), Some d).
Proof.
  intros H. unfold create_all. cbn [for_each]. unfold bind at 1 2.
  by rewrite (create_document_fault c msg x d H).
Qed.

(** X10: a seeding pass that fails after the eras leaves the store half
    seeded for good.  When the project insert raises, seed_demo fails with
    that error after the 5 eras were inserted; from then on, also on a store
    that answers again, seed_demo finds the era collection non-empty and
    returns "already-seeded" without inserting the rest of the demo data. *)
Theorem seed_demo_interrupted (d : db_state) (msg : string) :
  coll "era" d = [] ->
  faults d (OpCount "era") = None ->
  faults d (OpInsert "era") = None ->
  faults d (OpInsert "project") = Some msg ->
  seed_demo (Some d)
  = (Raise (StoreOperationFailure (OpInsert "project") msg),
     Some (with_all "era" seed_eras d))
  /\ length (coll "era" (with_all "era" seed_eras d)) = 5
  /\ (forall c, c ≠ "era" -> coll c (with_all "era" seed_eras d) = coll c d)
  /\ forall d', colls d' = colls (with_all "era" seed_eras d) ->
       faults d' (OpCount "era") = None ->
       seed_demo (Some d') = (Ok "already-seeded", Some d').
Proof.
  intros He Hc Hi Hp.
  assert (Hera : coll "era" (with_all "era" seed_eras d) = stamp (next_id d) seed_eras).
  { by rewrite coll_with_all_eq, He. }
  split; [|split; [|split]].
  - unfold seed_demo, bind, require_db. cbv beta iota.
    rewrite (count_documents_ok _ _ _ Hc), filter_all, He.
    cbn [length Nat.ltb Nat.leb].
    rewrite (create_all_inserts "era" seed_eras d Hi).
    unfold demo_projects at 1.
    by rewrite (create_all_fault "project" msg _ _ (with_all "era" seed_eras d) Hp).
  - by rewrite Hera, length_stamp.
  - intros c Hne. by apply coll_with_all_ne.
  - intros d' Hcolls Hc'. apply seed_demo_short_circuit; [exact Hc'|].
    unfold coll in *. rewrite Hcolls, Hera. discriminate.
Qed.

Lemma seed_demo_interrupted_witness :
  eval seed_demo (Some (failing (OpInsert "project") "disk full" empty_db))
  = Raise (StoreOperationFailure (OpInsert "project") "disk full")
  /\ seed_demo (Some (with_all "era" seed_eras empty_db))
     = (Ok "already-seeded", Some (with_all "era" seed_eras empty_db))
  /\ coll "project" (with_all "era" seed_eras empty_db) = [].
Proof.
  destruct (seed_demo_interrupted (failing (OpInsert "project") "disk full" empty_db)
              "disk full" eq_refl eq_refl eq_refl eq_refl) as (H1 & _ & _ & H4).
  split; [unfold eval; by rewrite H1|].
  split; [by apply H4 | reflexivity].
Defined.

(** ** What the requests keep *)

Lemma hoare_create_document (P : handle -> Prop) (Q : oid -> handle -> Prop)
    (E : handle -> Prop) (c : string) (data : dict) :
  (forall d, P (Some d) -> Q (next_id d) (Some (with_new c data d))) ->
  (forall db, P db -> E db) ->
  hoare P (create_document c data) Q E.
Proof.
  intros HQ HE [d|] HP; [|by apply HE].
  unfold create_document, insert_one.
  apply (hoare_client_call P Q E (OpInsert c)
           (fun d0 => (next_id d0, with_new c data d0))); [|exact HE|exact HP].
  intros d0 HP0 _. by apply HQ.
Qed.

Lemma hoare_delete_many (P : handle -> Prop) (Q : nat -> handle -> Prop)
    (E : handle -> Prop) (c : string) (q : query) :
  (forall d n, P (Some d) -> Q n (Some (without c q d))) ->
  (forall db, P db -> E db) ->
  hoare P (delete_many c q) Q E.
Proof.
  intros HQ HE. unfold delete_many. apply hoare_client_call; [|exact HE].
  intros d HP _. by apply HQ.
Qed.

Section Elsewhere.
Variable c : string.
Variable P : list stored_doc -> Prop.

Lemma preserved_create_elsewhere (c' : string) (data : dict) :
  c' ≠ c -> preserved (fun db => P (docs c db)) (create_document c' data).
Proof.
  intros Hne. apply hoare_create_document; [|done].
  intros d HP. cbn [docs] in *. by rewrite coll_with_new_ne.
Qed.

Lemma preserved_delete_elsewhere (c' : string) (q : query) :
  c' ≠ c -> preserved (fun db => P (docs c db)) (delete_many c' q).
Proof.
  intros Hne. apply hoare_delete_many; [|done].
  intros d n HP. cbn [docs] in *. by rewrite coll_without_ne.
Qed.

Lemma preserved_create_endpoint (c' : string) (payload : dict) :
  c' ≠ c ->
  preserved (fun db => P (docs c db))
    (x <- create_document c' payload ;; ret {| inserted_id := x |}).
Proof.
  intros Hne. apply preserved_bind; [by apply preserved_create_elsewhere|].
  intros x. apply preserved_ret.
Qed.

Lemma preserved_create_all_elsewhere (c' : string) (l : list dict) :
  c' ≠ c -> preserved (fun db => P (docs c db)) (create_all c' l).
Proof.
  intros Hne. apply preserved_for_each. intros x.
  apply preserved_bind; [by apply preserved_create_elsewhere|].
  intros _. apply preserved_ret.
Qed.
End Elsewhere.

Section Grows.
Variable c : string.
Variable l : list stored_doc.
Hypothesis not_profile : c ≠ "profile".
Hypothesis not_styles : c ≠ "styles".

Lemma grows_create (c' : string) (data : dict) :
  preserved (extends c l) (create_document c' data).
Proof.
  apply hoare_create_document; [|done]. unfold extends. intros d HP. cbn [docs] in *.
  destruct (decide (c' = c)) as [->|Hne].
  - rewrite coll_with_new_eq. by apply prefix_app_r.
  - by rewrite coll_with_new_ne.
Qed.

Lemma grows_create_all (c' : string) (xs : list dict) :
  preserved (extends c l) (create_all c' xs).
Proof.
  apply preserved_for_each. intros x.
  apply preserved_bind; [apply grows_create | intros _; apply preserved_ret].
Qed.

Lemma grows_create_endpoint (c' : string) (payload : dict) :
  preserved (extends c l) (x <- create_document c' payload ;; ret {| inserted_id := x |}).
Proof.
  apply preserved_bind; [apply grows_create | intros x; apply preserved_ret].
Qed.

Lemma grows_serve (r : request) (db : handle) : (extends c l) db -> (extends c l) (serve r db).
Proof.
  intros H. destruct r as [url| |p|p|p|p|p|p|]; cbn [serve]; [done|..];
    apply preserved_exec; try exact H.
  - apply preserved_get_all_content.
  - apply grows_create_endpoint.
  - apply grows_create_endpoint.
  - apply grows_create_endpoint.
  - apply grows_create_endpoint.
  - unfold set_profile_api.
    apply preserved_bind;
      [apply preserved_read_only, read_only_require_db | intros _].
    apply preserved_bind; [|intros _; apply grows_create_endpoint].
    apply (preserved_delete_elsewhere c (fun x => l `prefix_of` x)). congruence.
  - unfold set_styles_api.
    apply preserved_bind;
      [apply preserved_read_only, read_only_require_db | intros _].
    apply preserved_bind; [|intros _; apply grows_create_endpoint].
    apply (preserved_delete_elsewhere c (fun x => l `prefix_of` x)). congruence.
  - unfold seed_demo.
    apply preserved_bind;
      [apply preserved_read_only, read_only_require_db | intros _].
    apply preserved_bind;
      [apply preserved_read_only, read_only_count_documents | intros n].
    destruct (Nat.ltb 0 n); [apply preserved_ret|].
    do 4 (apply preserved_bind; [apply grows_create_all | intros _]).
    apply preserved_bind; [apply grows_create | intros _].
    apply preserved_bind;
      [apply (preserved_delete_elsewhere c (fun x => l `prefix_of` x)); congruence
      | intros _].
    apply preserved_bind; [apply grows_create | intros _].
    apply preserved_ret.
Qed.

Lemma grows_serve_all (rs : list request) (db : handle) :
  (extends c l) db -> (extends c l) (serve_all rs db).
Proof.
  revert db. induction rs as [|r rs IH]; intros db H; [done|].
  apply (IH (serve r db)). by apply grows_serve.
Qed.
End Grows.

(** X11: no sequence of requests deletes, changes or reorders a document of
    the era, project, skill or achievement collection (or of any collection
    other than profile and styles): what the collection held before is a
    prefix of what it holds afterwards, whether the requests returned or
    raised. *)
Theorem lists_only_grow (c : string) (rs : list request) (db : handle) :
  c ≠ "profile" ->
  c ≠ "styles" ->
  docs c db `prefix_of` docs c (serve_all rs db)
  /\ length (docs c db) <= length (docs c (serve_all rs db))
  /\ forall x, x ∈ docs c db -> x ∈ docs c (serve_all rs db).
Proof.
  intros Hp Hs.
  assert (H : docs c db `prefix_of` docs c (serve_all rs db)).
  { apply (grows_serve_all c (docs c db) Hp Hs). unfold extends. reflexivity. }
  split; [exact H|]. split; [by apply prefix_length|].
  intros x Hx. destruct H as [k ->]. apply elem_of_app. by left.
Qed.

Lemma lists_only_grow_witness :
  docs "era" (Some (seeded empty_db))
    `prefix_of` docs "era"
      (serve_all [PostProfile []; PostEras [("key", VStr "x")]; PostSeed;
                  PostStyles []]
         (Some (seeded empty_db))).
Proof.
  apply (lists_only_grow "era"
           [PostProfile []; PostEras [("key", VStr "x")]; PostSeed; PostStyles []]
           (Some (seeded empty_db))); discriminate.
Defined.

Lemma seed_demo_no_write (db : handle) :
  docs "era" db ≠ [] -> exec seed_demo db = db.
Proof.
  destruct db as [d|]; [|done]. cbn [docs]. intros Hne.
  destruct (faults d (OpCount "era")) as [msg|] eqn:Hc.
  - unfold exec, seed_demo, bind, require_db, count_documents. cbv beta iota.
    by rewrite (client_call_fault _ _ _ _ Hc).
  - unfold exec. by rewrite seed_demo_short_circuit.
Qed.

(** X12: once the era collection holds a document, seed_demo never writes
    again, whatever requests are served in between and whether they
    returned or raised. *)
Theorem seed_noop_once_seeded (rs : list request) (db : handle) :
  docs "era" db ≠ [] ->
  serve PostSeed (serve_all rs db) = serve_all rs db.
Proof.
  intros Hne. cbn [serve]. apply seed_demo_no_write.
  destruct (grows_serve_all "era" (docs "era" db) ltac:(done) ltac:(done)
              rs db ltac:(unfold extends; reflexivity)) as [k Hk].
  rewrite Hk. destruct (docs "era" db); [done | discriminate].
Qed.

Lemma seed_noop_once_seeded_witness :
  serve PostSeed
    (serve_all [PostProfile []; PostStyles []; PostSeed]
       (exec seed_demo (Some empty_db)))
  = serve_all [PostProfile []; PostStyles []; PostSeed]
      (exec seed_demo (Some empty_db)).
Proof.
  apply (seed_noop_once_seeded [PostProfile []; PostStyles []; PostSeed]
           (exec seed_demo (Some empty_db))).
  vm_compute. discriminate.
Defined.

(** ** Singleton invariants *)

Lemma at_most_one_profile_set (payload : dict) :
  preserved (fun db => length (docs "profile" db) <= 1) (set_profile_api payload).
Proof.
  unfold set_profile_api.
  apply preserved_bind;
    [apply preserved_read_only, read_only_require_db | intros _].
  apply (hoare_bind _ (fun _ db => docs "profile" db = [])).
  - apply hoare_delete_many; [|done]. intros d n _. cbn [docs].
    by rewrite coll_without_eq, filter_none.
  - intros _. apply (hoare_bind _ (fun _ db => length (docs "profile" db) <= 1)).
    + apply hoare_create_document.
      * intros d Hd. cbn [docs] in *. rewrite coll_with_new_eq, Hd. simpl. lia.
      * intros db Hd. rewrite Hd. simpl. lia.
    + intros x. by apply hoare_ret.
Qed.

Lemma at_most_one_profile_serve (r : request) (db : handle) :
  r ≠ PostSeed ->
  length (docs "profile" db) <= 1 -> length (docs "profile" (serve r db)) <= 1.
Proof.
  intros Hr H. destruct r as [url| |p|p|p|p|p|p|]; cbn [serve]; [done|..|done];
    apply (preserved_exec (fun db => length (docs "profile" db) <= 1));
    try exact H.
  - apply preserved_get_all_content.
  - by apply (preserved_create_endpoint "profile" (fun l => length l <= 1)).
  - by apply (preserved_create_endpoint "profile" (fun l => length l <= 1)).
  - by apply (preserved_create_endpoint "profile" (fun l => length l <= 1)).
  - by apply (preserved_create_endpoint "profile" (fun l => length l <= 1)).
  - apply at_most_one_profile_set.
  - unfold set_styles_api.
    apply preserved_bind;
      [apply preserved_read_only, read_only_require_db | intros _].
    apply preserved_bind;
      [by apply (preserved_delete_elsewhere "profile" (fun l => length l <= 1))
      | intros _].
    by apply (preserved_create_endpoint "profile" (fun l => length l <= 1)).
Qed.

(** X13: every request other than the seed keeps the profile collection at
    no more than one document, whether it returns or raises; this holds for
    any sequence of such requests. *)
Theorem profile_singleton_kept (rs : list request) (db : handle) :
  PostSeed ∉ rs ->
  length (docs "profile" db) <= 1 ->
  length (docs "profile" (serve_all rs db)) <= 1.
Proof.
  revert db. induction rs as [|r rs IH]; intros db Hrs H; [done|].
  apply not_elem_of_cons in Hrs as [Hr Hrs].
  apply (IH (serve r db) Hrs). apply at_most_one_profile_serve; [congruence | exact H].
Qed.

Lemma profile_singleton_kept_witness :
  length (docs "profile"
            (serve_all [PostProfile seed_profile; PostStyles []; GetContent;
                        PostProfile []; PostSkills []]
               (Some (failing (OpInsert "profile") "disk full" (seeded empty_db)))))
  <= 1.
Proof.
  apply (profile_singleton_kept
           [PostProfile seed_profile; PostStyles []; GetContent;
            PostProfile []; PostSkills []]
           (Some (failing (OpInsert "profile") "disk full" (seeded empty_db)))).
  - intros H. repeat (apply elem_of_cons in H as [H|H]; [discriminate|]).
    by apply elem_of_nil in H.
  - vm_compute. lia.
Defined.

Lemma at_most_one_global_replace (data : dict) :
  preserved (fun db => count_global db <= 1)
    (delete_many "styles" global_key ;;; create_document "styles" data).
Proof.
  apply (hoare_bind _ (fun _ db => count_global db = 0)).
  - apply hoare_delete_many; [|done]. intros d n _. unfold count_global.
    cbn [docs]. by rewrite coll_without_eq, filter_global_others.
  - intros _. apply hoare_create_document.
    + intros d Hd. unfold count_global in *. cbn [docs] in *.
      rewrite coll_with_new_eq, List.filter_app, length_app, Hd.
      cbn [List.filter]. destruct (is_global _); simpl; lia.
    + intros db Hd. rewrite Hd. lia.
Qed.

Lemma at_most_one_global_serve (r : request) (db : handle) :
  count_global db <= 1 -> count_global (serve r db) <= 1.
Proof.
  intros H. destruct r as [url| |p|p|p|p|p|p|]; cbn [serve]; [done|..];
    apply (preserved_exec (fun db => count_global db <= 1)); try exact H.
  - apply preserved_get_all_content.
  - by apply (preserved_create_endpoint "styles"
                (fun l => length (List.filter is_global l) <= 1)).
  - by apply (preserved_create_endpoint "styles"
                (fun l => length (List.filter is_global l) <= 1)).
  - by apply (preserved_create_endpoint "styles"
                (fun l => length (List.filter is_global l) <= 1)).
  - by apply (preserved_create_endpoint "styles"
                (fun l => length (List.filter is_global l) <= 1)).
  - unfold set_profile_api.
    apply preserved_bind;
      [apply preserved_read_only, read_only_require_db | intros _].
    apply preserved_bind;
      [by apply (preserved_delete_elsewhere "styles"
                   (fun l => length (List.filter is_global l) <= 1))
      | intros _].
    by apply (preserved_create_endpoint "styles"
                (fun l => length (List.filter is_global l) <= 1)).
  - unfold set_styles_api.
    apply preserved_bind;
      [apply preserved_read_only, read_only_require_db | intros _].
    pose proof (at_most_one_global_replace (dict_set "key" (VStr "global") p)) as Hr.
    intros db0 H0. specialize (Hr db0 H0). unfold bind in *.
    destruct (delete_many "styles" global_key db0) as [[n|e] db1]; [|done].
    destruct (create_document "styles" _ db1) as [[x|e] db2]; done.
  - unfold seed_demo.
    apply preserved_bind;
      [apply preserved_read_only, read_only_require_db | intros _].
    apply preserved_bind;
      [apply preserved_read_only, read_only_count_documents | intros n].
    destruct (Nat.ltb 0 n); [apply preserved_ret|].
    do 4 (apply preserved_bind;
            [by apply (preserved_create_all_elsewhere "styles"
                         (fun l => length (List.filter is_global l) <= 1))
            | intros _]).
    apply preserved_bind;
      [by apply (preserved_create_elsewhere "styles"
                   (fun l => length (List.filter is_global l) <= 1))
      | intros _].
    pose proof (at_most_one_global_replace seed_styles) as Hr.
    intros db0 H0. specialize (Hr db0 H0). unfold bind in *.
    destruct (delete_many "styles" global_key db0) as [[n'|e] db1]; [|done].
    destruct (create_document "styles" seed_styles db1) as [[x|e] db2]; done.
Qed.

(** X14: every request, the seed included, keeps the number of styles
    documents with key "global" at no more than one, whether it returns or
    raises; this holds for any sequence of requests. *)
Theorem global_styles_singleton_kept (rs : list request) (db : handle) :
  count_global db <= 1 -> count_global (serve_all rs db) <= 1.
Proof.
  revert db. induction rs as [|r rs IH]; intros db H; [done|].
  apply (IH (serve r db)). by apply at_most_one_global_serve.
Qed.

Lemma global_styles_singleton_kept_witness :
  count_global
    (serve_all [PostSeed; PostStyles [("key", VStr "draft")]; PostSeed;
                PostStyles []]
       (Some (with_new "styles" [("key", VStr "draft")] empty_db)))
  <= 1.
Proof.
  apply (global_styles_singleton_kept
           [PostSeed; PostStyles [("key", VStr "draft")]; PostSeed; PostStyles []]
           (Some (with_new "styles" [("key", VStr "draft")] empty_db))).
  vm_compute. lia.
Defined.

(** ** Health report: failure paths and the collection list *)






(** X17: every collection name test_database reports is a collection of the
    store, no name is reported twice, and when the listing answers on a
    store of at most 10 collections every collection is reported. *)
Theorem test_database_collections (url : option string) (d : db_state) (r : report) :
  test_database url (Some d) = Ok r ->
  (forall c, c ∈ collections r -> is_Some (colls d !! c))
  /\ NoDup (collections r)
  /\ ((forall m, db_name d ≠ AttrRaises m) ->
      faults d OpListNames = None ->
      size (colls d) <= 10 ->
      forall c, is_Some (colls d !! c) -> c ∈ collections r).
Proof.
  unfold test_database, test_database_body, try_except, bind, getattr_name,
    list_collection_names.
  assert (Hnames : forall c, c ∈ (map_to_list (colls d)).*1 <-> is_Some (colls d !! c)).
  { intros c. rewrite list_elem_of_fmap. split.
    - intros [[c' x] [-> Hx]]. apply elem_of_map_to_list in Hx. by eexists.
    - intros [x Hx]. exists (c, x). split; [done|]. by apply elem_of_map_to_list. }
  destruct (db_name d) as [|s|m] eqn:Hn; cbn.
  3: { intros [= <-]. cbn. split; [by intros c ?%elem_of_nil|].
       split; [constructor|]. intros H. by destruct (H m). }
  all: destruct (faults d OpListNames) as [msg|] eqn:Hf; cbn; intros [= <-]; cbn.
  all: try (split; [by intros c ?%elem_of_nil|]; split; [constructor | done]).
  all: split; [intros c Hc%subseteq_take; by apply Hnames|].
  all: split; [apply (sublist_NoDup _ _ (NoDup_fst_map_to_list (colls d))),
                 sublist_take|].
  all: intros _ _ Hsz c Hc; rewrite take_ge;
    [by apply Hnames | by rewrite length_fmap, length_map_to_list].
Qed.

Lemma test_database_collections_witness :
  "profile" ∈ ["skill"; "styles"; "era"; "achievement"; "profile"; "project"]
  /\ test_database None (Some (seeded empty_db))
     = Ok {| backend := "✅ Running"; database := "✅ Connected & Working";
             database_url := Some "❌ Not Set"; database_name := Some "codex";
             connection_status := "Connected";
             collections := ["skill"; "styles"; "era"; "achievement"; "profile";
                             "project"] |}.
Proof.
  assert (H : test_database None (Some (seeded empty_db))
              = Ok {| backend := "✅ Running"; database := "✅ Connected & Working";
                      database_url := Some "❌ Not Set";
                      database_name := Some "codex";
                      connection_status := "Connected";
                      collections := ["skill"; "styles"; "era"; "achievement";
                                      "profile"; "project"] |})
    by (vm_compute; reflexivity).
  split; [|exact H].
  destruct (test_database_collections None (seeded empty_db) _ H) as (_ & _ & Hall).
  apply Hall.
  - discriminate.
  - reflexivity.
  - vm_compute. lia.
  - vm_compute. by eexists.
Defined.

(** ** The demo data *)

Lemma Forall_stamp (P : dict -> Prop) (n : oid) (l : list dict) :
  Forall P l -> Forall (fun x => P (doc_fields x)) (stamp n l).
Proof.
  intros H. revert n. induction H as [|f l Hf Hl IH]; intros n; simpl;
    constructor; [exact Hf | apply IH].
Qed.

Lemma map_fields_stamp {A : Type} (g : dict -> A) (n : oid) (l : list dict) :
  map (fun x => g (doc_fields x)) (stamp n l) = map g l.
Proof. revert n. induction l as [|f l IH]; intros n; simpl; [done | by rewrite IH]. Qed.

Lemma seed_era_keys :
  map (str_field "key") seed_eras
  = [Some "ancient"; Some "medieval"; Some "industrial"; Some "cyber"; Some "cosmic"].
Proof. reflexivity. Qed.

(** X18: the projects a seeding pass inserts each name, in era_key, the key
    of an era document that the same pass put into the era collection, and
    the keys of the seeded eras are pairwise distinct: the soft reference
    from project to era resolves to exactly one era. *)
Theorem seed_demo_projects_reference_eras (d : db_state) :
  healthy d ->
  coll "era" d = [] ->
  exists d' new,
    seed_demo (Some d) = (Ok "seeded", Some d')
    /\ coll "project" d' = coll "project" d ++ new
    /\ length new = 5
    /\ Forall (fun x => exists k,
                 str_field "era_key" (doc_fields x) = Some k
                 /\ Some k ∈ map (fun e => str_field "key" (doc_fields e))
                                 (coll "era" d')) new
    /\ NoDup (map (fun e => str_field "key" (doc_fields e)) (coll "era" d')).
Proof.
  intros H He. exists (seeded d), (stamp (next_id d + 5) demo_projects).
  split; [by apply seed_demo_pass|]. split; [apply seeded_project|].
  split; [by rewrite length_stamp|].
  rewrite seeded_era, He, app_nil_l, map_fields_stamp, seed_era_keys. split.
  - apply (Forall_stamp (fun f => exists k, str_field "era_key" f = Some k /\ _)).
    unfold demo_projects.
    repeat (apply Forall_cons; split;
            [eexists; split; [reflexivity|]; apply list_elem_of_In; simpl; tauto|]).
    apply Forall_nil_2.
  - apply NoDup_ListNoDup. repeat constructor; simpl; intros Hin;
      repeat (destruct Hin as [Hin|Hin]; [discriminate|]); exact Hin.
Qed.

Lemma seed_demo_projects_reference_eras_witness :
  exists d' new,
    seed_demo (Some (with_new "project" [("title", VStr "Old")] empty_db))
    = (Ok "seeded", Some d')
    /\ coll "project" d' = [StoredDoc 0 [("title", VStr "Old")]] ++ new
    /\ length new = 5.
Proof.
  destruct (seed_demo_projects_reference_eras
              (with_new "project" [("title", VStr "Old")] empty_db))
    as (d' & new & H1 & H2 & H3 & _).
  - intros o. reflexivity.
  - reflexivity.
  - exists d', new. split; [exact H1|]. split; [exact H2 | exact H3].
Defined.

(** X19: what a seeding pass inserts satisfies the constraints schemas.py
    declares for it: every seeded era has a string key and name and a theme
    among the declared literals, every seeded skill a string name and an
    integer level within 0..100, and the seeded achievement a string title
    and a capsule among the declared literals. *)
Theorem seed_demo_conforms (d : db_state) :
  healthy d ->
  coll "era" d = [] ->
  exists d',
    seed_demo (Some d) = (Ok "seeded", Some d')
    /\ Forall (fun x => is_Some (str_field "key" (doc_fields x))
                        /\ is_Some (str_field "name" (doc_fields x))
                        /\ exists t, str_field "theme" (doc_fields x) = Some t
                                     /\ t ∈ Era_themes)
         (coll "era" d')
    /\ (exists new, coll "skill" d' = coll "skill" d ++ new
          /\ Forall (fun x => is_Some (str_field "name" (doc_fields x))
                              /\ exists n, dict_get "level" (doc_fields x)
                                           = Some (VInt n)
                                           /\ Skill_level_in_range n = true) new)
    /\ (exists new, coll "achievement" d' = coll "achievement" d ++ new
          /\ Forall (fun x => is_Some (str_field "title" (doc_fields x))
                              /\ exists c, str_field "capsule" (doc_fields x) = Some c
                                           /\ c ∈ Achievement_capsules) new).
Proof.
  intros H He. exists (seeded d). split; [by apply seed_demo_pass|].
  split; [|split].
  - rewrite seeded_era, He, app_nil_l.
    apply (Forall_stamp (fun f => is_Some (str_field "key" f)
                                  /\ is_Some (str_field "name" f)
                                  /\ exists t, str_field "theme" f = Some t
                                               /\ t ∈ Era_themes)).
    unfold seed_eras.
    repeat (apply Forall_cons; split;
            [split; [by eexists|]; split; [by eexists|];
             eexists; split; [reflexivity|];
             apply list_elem_of_In; simpl; tauto|]).
    apply Forall_nil_2.
  - eexists. split; [apply seeded_skill|].
    apply (Forall_stamp (fun f => is_Some (str_field "name" f)
                                  /\ exists n, dict_get "level" f = Some (VInt n)
                                               /\ Skill_level_in_range n = true)).
    unfold seed_skills.
    repeat (apply Forall_cons; split;
            [split; [by eexists|]; eexists; split; reflexivity|]).
    apply Forall_nil_2.
  - eexists. split; [apply seeded_achievement|].
    apply (Forall_stamp (fun f => is_Some (str_field "title" f)
                                  /\ exists c, str_field "capsule" f = Some c
                                               /\ c ∈ Achievement_capsules)).
    unfold seed_achievements.
    repeat (apply Forall_cons; split;
            [split; [by eexists|]; eexists; split; [reflexivity|];
             apply list_elem_of_In; simpl; tauto|]).
    apply Forall_nil_2.
Qed.

Lemma seed_demo_conforms_witness :
  exists d', seed_demo (Some empty_db) = (Ok "seeded", Some d')
             /\ length (coll "era" d') = 5.
Proof.
  destruct (seed_demo_conforms empty_db healthy_empty_db eq_refl)
    as (d' & H1 & H2 & _).
  exists d'. split; [exact H1|].
  rewrite (seed_demo_pass empty_db healthy_empty_db eq_refl) in H1.
  injection H1 as <-. vm_compute. reflexivity.
Defined.
